(** * PaperIQ: the offline segmentation, summary and question-answering core

    A shallow embedding of [app.py]: [analyze_paper_structure],
    [generate_comprehensive_summary], [answer_question_offline] and the
    upload branch of [main], followed by the properties of the specification
    that concern them.

    Text model.  A Python [str] is modelled by [string]; one [ascii] stands
    for one code point in the range U+0000..U+00FF, so [String.length] is
    Python's [len] on such text.  [str.lower], [str.strip] and [str.split]
    are written out below for that range.  The decorative prefixes of the
    answers (emoji, bullets) lie outside that range: those constants are
    written in their UTF-8 encoding, and the program never measures or slices
    them. *)

From Stdlib Require Import String Ascii List Arith Bool ZArith Lia.
From Stdlib Require Import DecimalString.
From Stdlib Require Import Recdef.
Import ListNotations.

Local Open Scope list_scope.
Local Open Scope string_scope.
Local Open Scope nat_scope.

(** ** Python string primitives *)

Module Py.

(** [c.isspace()] for a code point below 256. *)
Definition isspace (c : ascii) : bool :=
  let n := nat_of_ascii c in
  ((9 <=? n) && (n <=? 13)) || ((28 <=? n) && (n <=? 32))
  || (n =? 133) || (n =? 160).

(** [c.lower()] for a code point below 256: A-Z and the Latin-1 capitals
    (U+00C0..U+00DE without the multiplication sign U+00D7) move up by 32. *)
Definition lower_char (c : ascii) : ascii :=
  let n := nat_of_ascii c in
  if ((65 <=? n) && (n <=? 90))
     || ((192 <=? n) && (n <=? 222) && negb (n =? 215))
  then ascii_of_nat (n + 32) else c.

(** [s.lower()] *)
Fixpoint lower (s : string) : string :=
  match s with
  | EmptyString => EmptyString
  | String c r => String (lower_char c) (lower r)
  end.

(** [len(s)] *)
Definition len (s : string) : nat := String.length s.

(** [bool(s)]: a string is truthy when it is not empty. *)
Definition truthy (s : string) : bool :=
  match s with EmptyString => false | String _ _ => true end.

(** [sub in s] *)
Fixpoint contains (sub s : string) : bool :=
  String.prefix sub s
  || match s with
     | EmptyString => false
     | String _ r => contains sub r
     end.

(** [s.find(sub)]: index of the first occurrence, [-1] when there is none. *)
Fixpoint find_from (sub s : string) (i : Z) : Z :=
  if String.prefix sub s then i
  else match s with
       | EmptyString => (-1)%Z
       | String _ r => find_from sub r (i + 1)%Z
       end.

Definition find (sub s : string) : Z := find_from sub s 0%Z.

(** [s[:n]] and [s[n:]] for [n >= 0]. *)
Fixpoint take (n : nat) (s : string) : string :=
  match n, s with
  | S k, String c r => String c (take k r)
  | _, _ => EmptyString
  end.

Fixpoint drop (n : nat) (s : string) : string :=
  match n, s with
  | S k, String _ r => drop k r
  | _, _ => s
  end.

(** [s.lstrip(..)], [s.rstrip(..)], [s.strip(..)] for a set of characters
    given by its membership test. *)
Fixpoint lstrip_by (p : ascii -> bool) (s : string) : string :=
  match s with
  | EmptyString => EmptyString
  | String c r => if p c then lstrip_by p r else s
  end.

Fixpoint rstrip_by (p : ascii -> bool) (s : string) : string :=
  match s with
  | EmptyString => EmptyString
  | String c r =>
      match rstrip_by p r with
      | EmptyString => if p c then EmptyString else String c EmptyString
      | String d t => String c (String d t)
      end
  end.

Definition strip_by (p : ascii -> bool) (s : string) : string :=
  lstrip_by p (rstrip_by p s).

(** [s.strip()] *)
Definition strip (s : string) : string := strip_by isspace s.

(** [s.strip(chars)] *)
Definition strip_chars (chars : string) (s : string) : string :=
  strip_by (fun c => existsb (Ascii.eqb c) (list_ascii_of_string chars)) s.

(** [s.split(sep)] for a one-character separator: never the empty list. *)
Fixpoint split_on (sep : ascii) (s : string) : list string :=
  match s with
  | EmptyString => [EmptyString]
  | String c r =>
      if Ascii.eqb c sep then EmptyString :: split_on sep r
      else match split_on sep r with
           | [] => [String c EmptyString]
           | w :: ws => String c w :: ws
           end
  end.

(** [s.split()]: the maximal runs of non-whitespace characters. *)
Fixpoint split_ws_from (cur : string) (s : string) : list string :=
  match s with
  | EmptyString => if truthy cur then [cur] else []
  | String c r =>
      if isspace c
      then (if truthy cur then cur :: split_ws_from EmptyString r
            else split_ws_from EmptyString r)
      else split_ws_from (cur ++ String c EmptyString) r
  end.

Definition split_ws (s : string) : list string := split_ws_from EmptyString s.

(** [sep.join(parts)] *)
Definition join (sep : string) (parts : list string) : string :=
  String.concat sep parts.

(** [re.search(p, s)] for a pattern that is an alternation of literal
    words, [w1|w2|...|wn], given as the list of its alternatives: the
    search succeeds when one of the words occurs in [s]. *)
Definition re_search (alternatives : list string) (s : string) : bool :=
  existsb (fun w => contains w s) alternatives.

(** [any(w in s for w in words)] *)
Definition any_in (words : list string) (s : string) : bool :=
  existsb (fun w => contains w s) words.

(** [f"{n}"] and [f"{n:,}"] for a natural number. *)
Definition str_of_nat (n : nat) : string :=
  NilZero.string_of_uint (Nat.to_uint n).

Fixpoint group3 (k : nat) (rev_digits : list ascii) : list ascii :=
  match rev_digits with
  | [] => []
  | d :: ds =>
      match k, ds with
      | 2, _ :: _ => d :: ","%char :: group3 0 ds
      | _, _ => d :: group3 (S k) ds
      end
  end.

Definition str_of_nat_commas (n : nat) : string :=
  string_of_list_ascii
    (rev (group3 0 (rev (list_ascii_of_string (str_of_nat n))))).

End Py.

(** ** The data model *)

(** The seven keys of [section_patterns]; [current_section] is one of them
    or [None]. *)
Inductive section : Type :=
  | Abstract | Introduction | Methodology | Results
  | Discussion | Conclusion | References.

(** The dictionary [sections]: its nine keys are fixed by the literal that
    creates it and no key is ever added or removed, so it is a record with
    one field per key. *)
Record Sections : Type := mkSections {
  title : string;
  authors : string;
  abstract : list string;
  introduction : list string;
  methodology : list string;
  results : list string;
  discussion : list string;
  conclusion : list string;
  references : list string
}.

(** [sections[s]] for a buffer key [s]. *)
Definition buffer (s : section) (d : Sections) : list string :=
  match s with
  | Abstract => abstract d
  | Introduction => introduction d
  | Methodology => methodology d
  | Results => results d
  | Discussion => discussion d
  | Conclusion => conclusion d
  | References => references d
  end.

(** [sections[s].append(line)] *)
Definition append_line (s : section) (line : string) (d : Sections) : Sections :=
  let ap (k : section) (b : list string) : list string :=
    match s, k with
    | Abstract, Abstract | Introduction, Introduction
    | Methodology, Methodology | Results, Results
    | Discussion, Discussion | Conclusion, Conclusion
    | References, References => (b ++ [line])%list
    | _, _ => b
    end in
  mkSections (title d) (authors d)
    (ap Abstract (abstract d)) (ap Introduction (introduction d))
    (ap Methodology (methodology d)) (ap Results (results d))
    (ap Discussion (discussion d)) (ap Conclusion (conclusion d))
    (ap References (references d)).

Definition set_title (v : string) (d : Sections) : Sections :=
  mkSections v (authors d) (abstract d) (introduction d) (methodology d)
    (results d) (discussion d) (conclusion d) (references d).

Definition set_authors (v : string) (d : Sections) : Sections :=
  mkSections (title d) v (abstract d) (introduction d) (methodology d)
    (results d) (discussion d) (conclusion d) (references d).

Definition empty_sections : Sections :=
  mkSections "" "" [] [] [] [] [] [] [].

(** ** [analyze_paper_structure] *)

(** [section_patterns], in the insertion order of the dictionary literal,
    which is the order [.items()] enumerates it in. *)
Definition section_patterns : list (section * list string) :=
  [ (Abstract,     ["abstract"; "summary"]);
    (Introduction, ["introduction"; "background"; "motivation"]);
    (Methodology,  ["method"; "methodology"; "approach"; "experiment";
                    "procedure"; "materials"]);
    (Results,      ["result"; "finding"; "outcome"; "data"; "experiment"]);
    (Discussion,   ["discussion"; "analysis"; "interpretation"]);
    (Conclusion,   ["conclusion"; "concluding"; "summary"]);
    (References,   ["reference"; "bibliography"; "citation"]) ].

Definition academic_indicators : list string :=
  ["university"; "institute"; "department"; "college"; "@"; "email"].

(** [[line.strip() for line in text.split('\n') if line.strip()]] *)
Definition paper_lines (text : string) : list string :=
  map Py.strip
    (filter (fun line => Py.truthy (Py.strip line))
       (Py.split_on "010"%char text)).

(** The two places where the loop body writes a string-valued key. *)
Inductive front_write : Type :=
  | SetTitle (v : string)
  | SetAuthors (v : string).

(** Lines 81-87: the [if]/[elif] on the title and the authors. *)
Definition front_matter (i : nat) (line line_lower : string) : option front_write :=
  if (i =? 0) && (10 <? Py.len line) && (Py.len line <? 200)
  then Some (SetTitle line)
  else if (i <? 5) && Py.any_in academic_indicators line_lower
  then Some (SetAuthors line)
  else None.

Definition apply_write (w : option front_write) (d : Sections) : Sections :=
  match w with
  | Some (SetTitle v) => set_title v d
  | Some (SetAuthors v) => set_authors v d
  | None => d
  end.

(** Lines 90-93: the scan over [section_patterns.items()], which stops at
    the first pattern that matches a line shorter than 150 characters. *)
Fixpoint scan_patterns (pats : list (section * list string))
    (line line_lower : string) (current_section : option section)
    : option section :=
  match pats with
  | [] => current_section
  | (s, pattern) :: rest =>
      if Py.re_search pattern line_lower && (Py.len line <? 150)
      then Some s
      else scan_patterns rest line line_lower current_section
  end.

(** Lines 96-98: the capped append to the buffer of the current section. *)
Definition add_content (current_section : option section) (line : string)
    (d : Sections) : Sections :=
  match current_section with
  | Some s =>
      if 20 <? Py.len line
      then if List.length (buffer s d) <? 50 then append_line s line d else d
      else d
  | None => d
  end.

(** The loop carries the dictionary and [current_section]. *)
Record loop_state : Type := mkLoop {
  sections : Sections;
  current_section : option section
}.

(** One iteration of [for i, line in enumerate(lines)]. *)
Definition loop_body (i : nat) (line : string) (st : loop_state) : loop_state :=
  let line_lower := Py.lower line in
  let d1 := apply_write (front_matter i line line_lower) (sections st) in
  let cur := scan_patterns section_patterns line line_lower (current_section st) in
  mkLoop (add_content cur line d1) cur.

Fixpoint run_loop (i : nat) (lines : list string) (st : loop_state) : loop_state :=
  match lines with
  | [] => st
  | line :: rest => run_loop (S i) rest (loop_body i line st)
  end.

Definition initial_loop_state : loop_state := mkLoop empty_sections None.

Definition analyze_paper_structure (text : string) : Sections :=
  sections (run_loop 0 (paper_lines text) initial_loop_state).

(** ** [generate_comprehensive_summary] *)

Definition newline : string := String "010"%char EmptyString.

(** Lines 114-117: the first of the given lines with [10 < len < 200]. *)
Fixpoint first_title_line (lines : list string) : list string :=
  match lines with
  | [] => []
  | line :: rest =>
      if (10 <? Py.len line) && (Py.len line <? 200)
      then ["**📄 Title:** " ++ line]
      else first_title_line rest
  end.

(** Lines 109-117. *)
Definition title_part (text : string) (d : Sections) : list string :=
  if Py.truthy (title d)
  then ["**📄 Title:** " ++ title d]
  else first_title_line (firstn 3 (paper_lines text)).

(** Lines 120-121. *)
Definition authors_part (d : Sections) : list string :=
  if Py.truthy (authors d) then ["**👥 Authors:** " ++ authors d] else [].

Definition nonempty (b : list string) : bool :=
  match b with [] => false | _ :: _ => true end.

(** Lines 127-129. *)
Definition abstract_point (d : Sections) : list string :=
  if nonempty (abstract d)
  then ["**Abstract:** "
        ++ Py.take 200 (Py.join " " (firstn 5 (abstract d))) ++ "..."]
  else [].

Definition section_bullets : list (section * string) :=
  [ (Introduction, "Research Focus"); (Methodology, "Method Used");
    (Results, "Key Findings"); (Conclusion, "Conclusions") ].

(** Lines 139-142. *)
Definition bullet_points (d : Sections) : list string :=
  flat_map
    (fun sd : section * string =>
       let (s, description) := sd in
       if nonempty (buffer s d)
       then ["**" ++ description ++ ":** "
             ++ Py.take 150 (Py.join " " (firstn 3 (buffer s d))) ++ "..."]
       else [])
    section_bullets.

Definition key_points (d : Sections) : list string :=
  (abstract_point d ++ bullet_points d)%list.

(** Lines 144-147. *)
Definition key_points_part (d : Sections) : list string :=
  if nonempty (key_points d)
  then "## 🔍 Key Points" :: map (fun point => "• " ++ point) (key_points d)
  else [].

(** [summary_parts] when control reaches line 150. *)
Definition summary_parts_before_check (text : string) : list string :=
  let d := analyze_paper_structure text in
  (title_part text d ++ authors_part d ++ key_points_part d)%list.

(** Line 153. *)
Definition overview (text : string) : string :=
  if 400 <? Py.len text then Py.take 400 text ++ "..." else text.

Definition document_content_header : string := "## 📖 Document Content".

Definition generate_comprehensive_summary (text : string) : string :=
  let parts := summary_parts_before_check text in
  let parts :=
    if List.length parts <? 3
    then (parts ++ [document_content_header; overview text])%list
    else parts in
  Py.join (newline ++ newline) parts.

(** ** [answer_question_offline] *)

(** The function leaves through one of eighteen [return] statements.
    [outcome] names the statement together with the value it formats;
    [render] is the string that statement builds. *)
Inductive outcome : Type :=
  | Canned (answer : string)               (* line 182 *)
  | TitleReply (d : Sections)              (* line 186 *)
  | AuthorsReply (d : Sections)            (* line 189 *)
  | AbstractPreview (preview : string)     (* line 194 *)
  | AbstractMissing                        (* line 195 *)
  | MethodologyFound | MethodologyMissing  (* lines 199, 200 *)
  | ResultsFound | ResultsMissing          (* lines 204, 205 *)
  | ConclusionFound | ConclusionMissing    (* lines 209, 210 *)
  | PurposeFound | PurposeMissing          (* lines 214, 215 *)
  | TermLine (clean_line : string)   (* line 234 *)
  | TermNotFound (term : string)           (* line 236 *)
  | AskSpecific                            (* line 240 *)
  | KeywordLine (best_line : string)       (* line 256 *)
  | NothingFound.                          (* line 259 *)

Definition or_else (s fallback : string) : string :=
  if Py.truthy s then s else fallback.

Definition render (o : outcome) : string :=
  match o with
  | Canned answer => "**🤖 " ++ answer ++ "**"
  | TitleReply d => "**📄 " ++ or_else (title d) "Title not explicitly stated" ++ "**"
  | AuthorsReply d => "**👥 " ++ or_else (authors d) "Authors not specified" ++ "**"
  | AbstractPreview preview => "**📝 " ++ preview ++ "**"
  | AbstractMissing => "**📝 Abstract section not found in this paper**"
  | MethodologyFound => "**🔬 Research methodology details are in the methods section**"
  | MethodologyMissing => "**🔬 Methodology section not explicitly identified**"
  | ResultsFound => "**📊 Key findings and results are detailed in the results section**"
  | ResultsMissing => "**📊 Results section not explicitly identified**"
  | ConclusionFound => "**💡 Conclusions summarize the research outcomes and implications**"
  | ConclusionMissing => "**💡 Conclusion section not explicitly identified**"
  | PurposeFound => "**🎯 Research objectives are outlined in the introduction section**"
  | PurposeMissing => "**🎯 Research purpose described in the introduction**"
  | TermLine clean_line => "**📚 " ++ clean_line ++ "**"
  | TermNotFound term => "**❓ Information about '" ++ term ++ "' not found in this paper**"
  | AskSpecific => "**🤖 Please ask specific questions about this research paper's content, methods, or findings**"
  | KeywordLine best_line => "**🔍 " ++ best_line ++ "**"
  | NothingFound => "**❓ Specific answer not found in this paper. Try asking about the title, authors, methods, or results.**"
  end.

(** [simple_questions], in the insertion order of the dictionary literal. *)
Definition simple_questions (d : Sections) : list (string * string) :=
  [ ("what is artificial intelligence",
     "AI refers to machines that can perform tasks typically requiring human intelligence.");
    ("what is ai",
     "AI refers to machines that can perform tasks typically requiring human intelligence.");
    ("what is machine learning",
     "Machine learning is a subset of AI that enables computers to learn without explicit programming.");
    ("what is deep learning",
     "Deep learning uses neural networks with multiple layers to analyze various data types.");
    ("what is neural network",
     "Neural networks are computing systems inspired by the human brain that recognize patterns.");
    ("what is data science",
     "Data science combines statistics, programming, and domain knowledge to extract insights from data.");
    ("what is computer vision",
     "Computer vision enables computers to interpret and understand visual information from the world.");
    ("what is natural language processing",
     "NLP enables computers to understand, interpret, and generate human language.");
    ("what is robotics",
     "Robotics involves designing and operating machines that can perform tasks automatically.");
    ("who are the authors",
     "Authors: " ++ or_else (authors d) "Not specified in the paper");
    ("what is the title",
     "Title: " ++ or_else (title d) "Not clearly specified");
    ("what is the abstract",
     "The abstract summarizes the paper's main objectives, methods, results, and conclusions.") ].

(** Lines 180-182: the first canned question that occurs in the question. *)
Fixpoint canned_answer (table : list (string * string)) (question_lower : string)
    : option outcome :=
  match table with
  | [] => None
  | (simple_q, answer) :: rest =>
      if Py.contains simple_q question_lower then Some (Canned answer)
      else canned_answer rest question_lower
  end.

(** Lines 226-236: the scan of the raw lines for the term. *)
Fixpoint definition_scan (term : string) (lines : list string) : outcome :=
  match lines with
  | [] => TermNotFound term
  | line :: rest =>
      if Py.contains term (Py.lower line)
         && (20 <? Py.len line) && (Py.len line <? 300)
      then
        let clean_line := Py.strip line in
        TermLine
          (if 150 <? Py.len clean_line
           then Py.take 150 clean_line ++ "..." else clean_line)
      else definition_scan term rest
  end.

(** Lines 217-236: [None] when the branch ends without a [return]. *)
Definition definition_answer (question_lower text : string) : option outcome :=
  if Py.contains "what is" question_lower || Py.contains "what are" question_lower
  then
    let term_start :=
      if Py.contains "what is" question_lower
      then (Py.find "what is" question_lower + 8)%Z
      else (Py.find "what are" question_lower + 9)%Z in
    let term := Py.strip_chars "? " (Py.drop (Z.to_nat term_start) question_lower) in
    if Py.truthy term
    then Some (definition_scan term (Py.split_on "010"%char text))
    else None
  else None.

(** Lines 185-236: the [if]/[elif] chain on the kind of question; [None]
    when control falls out of the chain. *)
Definition category_answer (question_lower text : string) (d : Sections)
    : option outcome :=
  if Py.any_in ["title"; "what is the paper about"; "name of paper"] question_lower
  then Some (TitleReply d)
  else if Py.any_in ["author"; "who wrote"; "who is the author"] question_lower
  then Some (AuthorsReply d)
  else if Py.any_in ["abstract"; "summary"; "overview"] question_lower
  then Some (if nonempty (abstract d)
             then AbstractPreview
                    (Py.take 100 (Py.join " " (firstn 3 (abstract d))) ++ "...")
             else AbstractMissing)
  else if Py.any_in ["method"; "methodology"; "approach"; "how did they"] question_lower
  then Some (if nonempty (methodology d) then MethodologyFound else MethodologyMissing)
  else if Py.any_in ["result"; "finding"; "outcome"; "what did they find"] question_lower
  then Some (if nonempty (results d) then ResultsFound else ResultsMissing)
  else if Py.any_in ["conclusion"; "conclude"; "what was concluded"] question_lower
  then Some (if nonempty (conclusion d) then ConclusionFound else ConclusionMissing)
  else if Py.any_in ["purpose"; "goal"; "objective"; "why"; "aim"] question_lower
  then Some (if nonempty (introduction d) then PurposeFound else PurposeMissing)
  else if Py.any_in ["what is"; "what are"; "define"] question_lower
  then definition_answer question_lower text
  else None.

(** Lines 243-259: the keyword-based scan of the document. *)
Definition keyword_scan (question_lower text : string) : outcome :=
  let keywords := filter (fun word => 3 <? Py.len word) (Py.split_ws question_lower) in
  let relevant_lines :=
    map Py.strip
      (filter
         (fun line =>
            Py.any_in keywords (Py.lower line)
            && (30 <? Py.len (Py.strip line)) && (Py.len (Py.strip line) <? 200))
         (Py.split_on "010"%char text)) in
  match relevant_lines with
  | best_line :: _ =>
      KeywordLine (if 120 <? Py.len best_line
                   then Py.take 120 best_line ++ "..." else best_line)
  | [] => NothingFound
  end.

(** Which [return] statement [answer_question_offline] leaves through. *)
Definition resolve (question text : string) : outcome :=
  let question_lower := Py.strip (Py.lower question) in
  let d := analyze_paper_structure text in
  match canned_answer (simple_questions d) question_lower with
  | Some o => o
  | None =>
      match category_answer question_lower text d with
      | Some o => o
      | None =>
          if List.length (Py.split_ws question) <=? 4 then AskSpecific
          else keyword_scan question_lower text
      end
  end.

Definition answer_question_offline (question text : string) : string :=
  render (resolve question text).

(** ** The upload branch of [main] *)

(** [st.session_state].  The key [sections] starts as the empty dictionary
    ([None] here) and later holds the result of [analyze_paper_structure]. *)
Record session_state : Type := mkSession {
  processed_text : string;
  summary : string;
  chat_history : list (string * string);
  session_sections : option Sections
}.

Definition initial_session : session_state := mkSession "" "" [] None.

(** What the page shows: the Streamlit calls of the branch, in order. *)
#[warnings="-register-all"]
Inductive widget : Type :=
  | Info (body : string)
  | Success (body : string)
  | Error (body : string)
  | Metric (label value : string)
  | Write (body : string)
  | TextArea (label value : string)
  | Expander (label : string) (inner : list widget).

(** [st.session_state.sections.items()] as key (already upper-cased, as line
    313 prints it) and [len] of the value, in the order of the dictionary. *)
Definition section_sizes (d : Sections) : list (string * nat) :=
  [ ("TITLE", Py.len (title d)); ("AUTHORS", Py.len (authors d));
    ("ABSTRACT", List.length (abstract d));
    ("INTRODUCTION", List.length (introduction d));
    ("METHODOLOGY", List.length (methodology d));
    ("RESULTS", List.length (results d));
    ("DISCUSSION", List.length (discussion d));
    ("CONCLUSION", List.length (conclusion d));
    ("REFERENCES", List.length (references d)) ].

(** Line 304: the number of truthy values. *)
Definition sections_found (d : Sections) : nat :=
  List.length (filter (fun kv : string * nat => 0 <? snd kv) (section_sizes d)).

(** Lines 311-313. *)
Definition structure_lines (d : Sections) : list widget :=
  flat_map
    (fun kv : string * nat =>
       if 0 <? snd kv
       then [Write ("**" ++ fst kv ++ ":** " ++ Py.str_of_nat (snd kv)
                    ++ " lines detected")]
       else [])
    (section_sizes d).

Definition insufficient_text_message : string :=
  "❌ Could not extract sufficient text. Please try another file.".

(** Lines 291-321, once the text has been extracted. *)
Definition process_text (st : session_state) (text : string)
    : session_state * list widget :=
  if Py.truthy text && (100 <? Py.len (Py.strip text))
  then
    let d := analyze_paper_structure text in
    (mkSession text (summary st) (chat_history st) (Some d),
     [ Success "✅ Document processed successfully!";
       Metric "Characters" (Py.str_of_nat_commas (Py.len text));
       Metric "Words" (Py.str_of_nat_commas (List.length (Py.split_ws text)));
       Metric "Sections Found" (Py.str_of_nat (sections_found d));
       Metric "Status" "Ready ✅";
       Expander "🔍 Detected Paper Structure" (structure_lines d);
       Expander "📖 View Text Preview"
         [TextArea "Extracted Content"
            (if 1500 <? Py.len text then Py.take 1500 text ++ "..." else text)] ])
  else (st, [Error insufficient_text_message]).

Section Upload.

(** The uploaded file and the two extraction libraries are outside the
    program: PyMuPDF either yields the text of the pages or raises, in
    which case [extract_text_from_pdf] shows [str(e)] and returns the empty
    string; reading a text file yields its decoded content. *)
Variable uploaded_file : Type.
Variable file_name : uploaded_file -> string.
Variable file_type : uploaded_file -> string.
Variable pdf_pages_text : uploaded_file -> string + string.
Variable txt_content : uploaded_file -> string.

Definition extract_text_from_pdf (f : uploaded_file) : string * list widget :=
  match pdf_pages_text f with
  | inl text => (text, [])
  | inr e => ("", [Error ("❌ Error reading PDF: " ++ e)])
  end.

Definition extract_text_from_txt (f : uploaded_file) : string * list widget :=
  (txt_content f, []).

(** Lines 286-289. *)
Definition extract_text (f : uploaded_file) : string * list widget :=
  if String.eqb (file_type f) "application/pdf"
  then extract_text_from_pdf f
  else extract_text_from_txt f.

(** Lines 282-321: the body of [if uploaded_file is not None]. *)
Definition upload (st : session_state) (f : uploaded_file)
    : session_state * list widget :=
  let (text, shown) := extract_text f in
  let (st', out) := process_text st text in
  (st',
   (Info ("📁 **File:** " ++ file_name f ++ " | **Type:** " ++ file_type f)
      :: shown ++ out)%list).

End Upload.

Arguments extract_text {uploaded_file}.
Arguments upload {uploaded_file}.

(** ** The summary and chat branches of [main] *)

(** What these two pages show below their header, in order. *)
Inductive element : Type :=
  | Warning (body : string)
  | InfoBox (body : string)
  | Markdown (body : string)
  | Subheader (body : string)
  | Written (body : string).

Definition set_summary (v : string) (st : session_state) : session_state :=
  mkSession (processed_text st) v (chat_history st) (session_sections st).


(** Lines 326-334: the summary page while the button is not pressed. *)
Definition summary_view (st : session_state) : session_state * list element :=
  if negb (Py.truthy (processed_text st))
  then (st, [Warning "⚠️ Please upload a research paper in the 'Upload & Analyze' section first."])
  else
    let st1 :=
      if negb (Py.truthy (summary st))
      then set_summary (generate_comprehensive_summary (processed_text st)) st
      else st in
    (st1, [Markdown (summary st1)]).

(** Lines 326-340.  [regenerate] is the value of the button; [st.rerun()]
    runs the script again, with the button released, and what that run shows
    replaces the page. *)
Definition summary_page (regenerate : bool) (st : session_state)
    : session_state * list element :=
  if negb (Py.truthy (processed_text st)) then summary_view st
  else if regenerate
  then
    let st1 := fst (summary_view st) in
    summary_view (set_summary (generate_comprehensive_summary (processed_text st1)) st1)
  else summary_view st.








(** ** [ai_analyzer.py]: the question generator without spaCy *)

Module AIAnalyzer.

Definition default_questions : list string :=
  [ "What is the main argument presented?";
    "How does the author support their claims?";
    "What methodology was used in this research?";
    "What are the key findings?";
    "What limitations are mentioned?";
    "What future work is suggested?";
    "How does this relate to existing research?";
    "What are the practical implications?" ].

(** [l[:n]] for an integer [n]: a negative [n] counts from the end. *)
Definition slice_to {A : Type} (n : Z) (l : list A) : list A :=
  if (0 <=? n)%Z then firstn (Z.to_nat n) l
  else firstn (List.length l - Z.to_nat (- n)) l.

(** Lines 147-148: [while len(questions) < num_questions:
    questions.extend(default_questions)]. *)
Function fill_loop (num_questions : Z) (questions : list string)
    {measure (fun q => Z.to_nat num_questions - List.length q) questions}
    : list string :=
  if (Z.of_nat (List.length questions) <? num_questions)%Z
  then fill_loop num_questions (questions ++ default_questions)%list
  else questions.
Proof.
  intros num_questions questions H. apply Z.ltb_lt in H.
  rewrite length_app. cbn [List.length default_questions]. lia.
Defined.

(** [_fill_default_questions] *)
Definition fill_default_questions (questions : list string) (num_questions : Z)
    : list string :=
  slice_to num_questions (fill_loop num_questions questions).

(** [re.split(p, s)] for a pattern [[...]+], a non-empty run of characters
    of a class: the pieces between the maximal runs, empty pieces at the two
    ends included.  [in_run] tells that the previous character was in the
    class. *)
Fixpoint split_runs_from (class : ascii -> bool) (in_run : bool) (s : string)
    : list string :=
  match s with
  | EmptyString => [EmptyString]
  | String c r =>
      if class c
      then (if in_run then split_runs_from class true r
            else EmptyString :: split_runs_from class true r)
      else match split_runs_from class false r with
           | [] => [String c EmptyString]
           | w :: ws => String c w :: ws
           end
  end.

(** [re.split(r'[.!?]+', text)] *)
Definition split_sentences (text : string) : list string :=
  split_runs_from (fun c => existsb (Ascii.eqb c) ["."%char; "!"%char; "?"%char])
    false text.

(** Line 130. *)
Definition explain_question (sentence : string) : string :=
  "Can you explain: '" ++ sentence ++ "'?".

(** [_generate_questions_with_fallback] *)
Definition generate_questions_with_fallback (text : string) (num_questions : Z)
    : list string :=
  let sentences :=
    firstn 10
      (map Py.strip
         (filter (fun s => 50 <? Py.len (Py.strip s)) (split_sentences text))) in
  fill_default_questions (map explain_question sentences) num_questions.

(** [_generate_simple_summary] with its default [max_sentences=3]. *)
Definition generate_simple_summary (sentences : list string) : string :=
  Py.join " " (firstn 3 sentences).

Definition positive_words : list string :=
  ["good"; "great"; "excellent"; "positive"; "successful"; "effective"].

Definition negative_words : list string :=
  ["bad"; "poor"; "negative"; "limited"; "challenging"; "problem"].

(** [sum(1 for word in words if word in text_lower)] *)
Definition count_present (words : list string) (text_lower : string) : nat :=
  List.length (filter (fun word => Py.contains word text_lower) words).

(** [_analyze_sentiment], on the text of the document. *)
Definition analyze_sentiment (doc_text : string) : string :=
  let text_lower := Py.lower doc_text in
  let pos_count := count_present positive_words text_lower in
  let neg_count := count_present negative_words text_lower in
  if neg_count <? pos_count then "positive"
  else if pos_count <? neg_count then "negative"
  else "neutral".

End AIAnalyzer.

(** ** [document_processor.py]: [clean_text] *)

Module DocumentProcessor.

Section CleanText.

(** The character class [\w] of the [re] module is taken as given. *)
Variable is_word : ascii -> bool.

(** [re.sub(r'\s+', ' ', text)]: every maximal run of white space becomes
    one space.  [in_run] tells that the previous character was white
    space. *)
Fixpoint collapse_spaces_from (in_run : bool) (s : string) : string :=
  match s with
  | EmptyString => EmptyString
  | String c r =>
      if Py.isspace c
      then (if in_run then collapse_spaces_from true r
            else String " "%char (collapse_spaces_from true r))
      else String c (collapse_spaces_from false r)
  end.

Definition collapse_spaces (text : string) : string :=
  collapse_spaces_from false text.

(** The characters that [[^\w\s.,!?;:()\-]] does not match. *)
Definition kept (c : ascii) : bool :=
  is_word c || Py.isspace c
  || existsb (Ascii.eqb c)
       ["."%char; ","%char; "!"%char; "?"%char; ";"%char; ":"%char;
        "("%char; ")"%char; "-"%char].

(** [re.sub(r'[^...]', '', text)]: the characters outside the class go. *)
Fixpoint keep_chars (p : ascii -> bool) (s : string) : string :=
  match s with
  | EmptyString => EmptyString
  | String c r => if p c then String c (keep_chars p r) else keep_chars p r
  end.

Definition clean_text (text : string) : string :=
  Py.strip (keep_chars kept (collapse_spaces text)).

End CleanText.

End DocumentProcessor.

(** ** Notions used by the statements *)

(** The sections whose pattern is found in the lower-cased line, in the
    enumeration order of [section_patterns]. *)
Definition matching_sections (line : string) : list section :=
  map fst
    (filter (fun sp : section * list string => Py.re_search (snd sp) (Py.lower line))
       section_patterns).

(** The section a line selects on its own: what lines 90-93 assign, or
    [None] when they assign nothing. *)
Definition header_of (line : string) : option section :=
  scan_patterns section_patterns line (Py.lower line) None.

(** The assignments to [sections['title']] and [sections['authors']] that a
    run performs, in order, each with the index of its line. *)
Fixpoint front_writes (i : nat) (lines : list string) : list (nat * front_write) :=
  match lines with
  | [] => []
  | line :: rest =>
      match front_matter i line (Py.lower line) with
      | Some w => (i, w) :: front_writes (S i) rest
      | None => front_writes (S i) rest
      end
  end.

Definition title_writes (ws : list (nat * front_write)) : list (nat * string) :=
  flat_map (fun iw : nat * front_write =>
              match snd iw with SetTitle v => [(fst iw, v)] | SetAuthors _ => [] end) ws.

Definition authors_writes (ws : list (nat * front_write)) : list (nat * string) :=
  flat_map (fun iw : nat * front_write =>
              match snd iw with SetAuthors v => [(fst iw, v)] | SetTitle _ => [] end) ws.

(** Whether an outcome is one of the two [return] statements of the
    keyword-based scan. *)
Definition from_keyword_scan (o : outcome) : bool :=
  match o with
  | KeywordLine _ | NothingFound => true
  | _ => false
  end.

(** Equality of section names is decidable. *)
Lemma section_eq_dec (s k : section) : {s = k} + {s <> k}.
Proof. decide equality. Defined.

(** Whether line 98 runs for the buffer [k]. *)
Definition appends (cur : option section) (line : string) (d : Sections)
    (k : section) : bool :=
  match cur with
  | Some s =>
      if section_eq_dec s k
      then (20 <? Py.len line) && (List.length (buffer k d) <? 50)
      else false
  | None => false
  end.

(** The cap of line 97, as a property of the dictionary. *)
Definition capped (d : Sections) : Prop :=
  forall k, List.length (buffer k d) <= 50.

(** Every buffered line is longer than 20 characters. *)
Definition long_lines (d : Sections) : Prop :=
  forall k l, In l (buffer k d) -> 20 < Py.len l.

(** Documents used as concrete inputs. *)
Definition six_line_abstract : list string :=
  [ "We study how scanned papers can be segmented.";
    "The input is the plain text of the document.";
    "Every line is trimmed before it is inspected.";
    "Empty lines are dropped before the scan starts.";
    "Headers are found by looking for known words.";
    "Lines are collected under the header above them." ].

Definition two_author_document : string :=
  "Segmentation of Scanned Papers" ++ newline
  ++ "Ada Byron, Department of Computing" ++ newline
  ++ "ada@example.org".

Definition methods_document : string :=
  "Notes" ++ newline ++ "Materials and Methods of the Study"
  ++ newline ++ "Samples were taken daily for a month.".

Definition plain_document : string :=
  "short" ++ newline ++ "A line of plain text with nothing in it".

(** ** Notions used by the further properties *)

(** One list is obtained from another by deleting elements. *)
Inductive subsequence {A : Type} : list A -> list A -> Prop :=
  | sub_nil (l : list A) : subsequence [] l
  | sub_take (x : A) (s l : list A) : subsequence s l -> subsequence (x :: s) (x :: l)
  | sub_skip (x : A) (s l : list A) : subsequence s l -> subsequence s (x :: l).

(** The number of lines kept in the seven buffers together. *)
Definition total_buffered (d : Sections) : nat :=
  List.length (abstract d) + List.length (introduction d)
  + List.length (methodology d) + List.length (results d)
  + List.length (discussion d) + List.length (conclusion d)
  + List.length (references d).

(** The lines from the first header line on. *)
Fixpoint from_first_header (lines : list string) : list string :=
  match lines with
  | [] => []
  | line :: rest =>
      match header_of line with
      | Some _ => lines
      | None => from_first_header rest
      end
  end.

(** Whether every character of a string passes a test. *)
Fixpoint all_chars (p : ascii -> bool) (s : string) : bool :=
  match s with
  | EmptyString => true
  | String c r => p c && all_chars p r
  end.

(** Line 96: a line is long enough to be kept. *)
Definition long_line (l : string) : bool := 20 <? Py.len l.

(** [s[:n] + "..." if len(s) > n else s], the cut applied to the lines that
    the answers quote (lines 232-233 and 254-255). *)
Definition clip (n : nat) (s : string) : string :=
  if n <? Py.len s then Py.take n s ++ "..." else s.

(** What an answer says about the document, for the answers that report on
    a section: the section was found, or it was not. *)
Definition agrees_with (d : Sections) (o : outcome) : Prop :=
  match o with
  | AbstractPreview preview =>
      abstract d <> []
      /\ preview = Py.take 100 (Py.join " " (firstn 3 (abstract d))) ++ "..."
  | AbstractMissing => abstract d = []
  | MethodologyFound => methodology d <> []
  | MethodologyMissing => methodology d = []
  | ResultsFound => results d <> []
  | ResultsMissing => results d = []
  | ConclusionFound => conclusion d <> []
  | ConclusionMissing => conclusion d = []
  | PurposeFound => introduction d <> []
  | PurposeMissing => introduction d = []
  | TitleReply d' | AuthorsReply d' => d' = d
  | _ => True
  end.

(** The canned questions whose answer does not mention the document: the
    first nine entries of [simple_questions]. *)
Definition general_questions : list (string * string) :=
  firstn 9 (simple_questions empty_sections).

(** What a definition lookup reports: the line it quotes contains the term
    and has the required length, or no line of the document does. *)
Definition lookup_result (text : string) (o : outcome) : Prop :=
  match o with
  | TermLine c =>
      exists term line,
        term <> ""
        /\ In line (Py.split_on "010"%char text)
        /\ Py.contains term (Py.lower line) = true
        /\ 20 < Py.len line < 300
        /\ c = clip 150 (Py.strip line)
  | TermNotFound term =>
      term <> ""
      /\ forall line, In line (Py.split_on "010"%char text) ->
                      20 < Py.len line < 300 ->
                      Py.contains term (Py.lower line) = false
  | _ => True
  end.

(** Line 291: the text is long enough to be processed. *)
Definition sufficient (text : string) : bool :=
  Py.truthy text && (100 <? Py.len (Py.strip text)).

(** A document of more than 100 characters. *)
Definition abstract_document : string :=
  Py.join newline ("Abstract" :: six_line_abstract).

(** Lines 81 and 115: a line can serve as a title. *)
Definition title_like (line : string) : bool :=
  (10 <? Py.len line) && (Py.len line <? 200).

(** A non-empty line without white space at either end and without a line
    break. *)
Definition trimmed_line (line : string) : Prop :=
  line <> ""
  /\ Py.strip line = line
  /\ all_chars (fun c => negb (Ascii.eqb c "010"%char)) line = true.

(** White space, if any, is the plain space. *)
Definition plain_space (c : ascii) : bool :=
  negb (Py.isspace c) || Ascii.eqb c " "%char.

(** ** The embedding on concrete inputs *)

Example split_keeps_empty_pieces :
  Py.split_on "010"%char ("a" ++ newline ++ newline ++ "b" ++ newline)
  = ["a"; ""; "b"; ""].
Proof. reflexivity. Qed.

Example strip_trims_both_ends :
  Py.strip ("  Jane, University of X " ++ newline) = "Jane, University of X".
Proof. reflexivity. Qed.

Example split_ws_drops_runs : Py.split_ws "  what is   AI " = ["what"; "is"; "AI"].
Proof. reflexivity. Qed.

Example commas_every_three_digits :
  map Py.str_of_nat_commas [0; 12; 123; 1000; 4321]
  = ["0"; "12"; "123"; "1,000"; "4,321"].
Proof. vm_compute. reflexivity. Qed.

Example analysis_of_methods_document :
  analyze_paper_structure methods_document
  = mkSections "" "" [] []
      ["Materials and Methods of the Study";
       "Samples were taken daily for a month."] [] [] [] [].
Proof. vm_compute. reflexivity. Qed.

Example title_question :
  answer_question_offline "What is the title" "Deep Learning Survey"
  = "**🤖 Title: Deep Learning Survey**".
Proof. vm_compute. reflexivity. Qed.

Example definition_question :
  answer_question_offline "What is entropy?"
    ("Notes" ++ newline ++ "  Entropy is a measure of disorder in a system.")
  = "**📚 Entropy is a measure of disorder in a system.**".
Proof. vm_compute. reflexivity. Qed.

Example keyword_question :
  answer_question_offline "define the entropy measure used here"
    ("Notes" ++ newline ++ "  Entropy is a measure of disorder in a system.")
  = "**🔍 Entropy is a measure of disorder in a system.**".
Proof. vm_compute. reflexivity. Qed.

(** ** Basic facts about the dictionary *)

Lemma buffer_append_line s k line d :
  buffer k (append_line s line d)
  = if section_eq_dec s k then (buffer k d ++ [line])%list else buffer k d.
Proof.
  destruct (section_eq_dec s k) as [->|Hne].
  - destruct k; reflexivity.
  - destruct s, k; try reflexivity; contradiction Hne; reflexivity.
Qed.

Lemma buffer_apply_write w d k : buffer k (apply_write w d) = buffer k d.
Proof. destruct w as [[v|v]|]; destruct k; reflexivity. Qed.

Lemma title_append_line s line d : title (append_line s line d) = title d.
Proof. reflexivity. Qed.

Lemma authors_append_line s line d : authors (append_line s line d) = authors d.
Proof. reflexivity. Qed.

Lemma title_add_content cur line d : title (add_content cur line d) = title d.
Proof.
  unfold add_content. destruct cur as [s|]; [|reflexivity].
  destruct (20 <? Py.len line); [|reflexivity].
  destruct (List.length (buffer s d) <? 50); reflexivity.
Qed.

Lemma authors_add_content cur line d : authors (add_content cur line d) = authors d.
Proof.
  unfold add_content. destruct cur as [s|]; [|reflexivity].
  destruct (20 <? Py.len line); [|reflexivity].
  destruct (List.length (buffer s d) <? 50); reflexivity.
Qed.

Lemma buffer_add_content cur line d k :
  buffer k (add_content cur line d)
  = if appends cur line d k then (buffer k d ++ [line])%list else buffer k d.
Proof.
  unfold add_content, appends. destruct cur as [s|]; [|reflexivity].
  destruct (section_eq_dec s k) as [->|Hne].
  - destruct (20 <? Py.len line); [|reflexivity]. cbn [andb].
    destruct (List.length (buffer k d) <? 50); [|reflexivity].
    rewrite buffer_append_line. destruct (section_eq_dec k k); congruence.
  - destruct (20 <? Py.len line); [|reflexivity].
    destruct (List.length (buffer s d) <? 50); [|reflexivity].
    rewrite buffer_append_line. destruct (section_eq_dec s k); congruence.
Qed.

(** The buffer [k] after one iteration. *)
Lemma buffer_loop_body i line st k :
  buffer k (sections (loop_body i line st))
  = if appends (current_section (loop_body i line st)) line (sections st) k
    then (buffer k (sections st) ++ [line])%list
    else buffer k (sections st).
Proof.
  unfold loop_body. cbn [sections current_section].
  rewrite buffer_add_content. unfold appends.
  rewrite !buffer_apply_write. reflexivity.
Qed.

Lemma appends_true cur line d k :
  appends cur line d k = true ->
  cur = Some k /\ 20 < Py.len line /\ List.length (buffer k d) < 50.
Proof.
  unfold appends. destruct cur as [s|]; [|discriminate].
  destruct (section_eq_dec s k) as [->|]; [|discriminate].
  intros H. apply andb_prop in H as [H1 H2].
  apply Nat.ltb_lt in H1, H2. auto.
Qed.

(** ** The pattern scan *)

Lemma scan_patterns_default pats line ll cur :
  scan_patterns pats line ll cur
  = match scan_patterns pats line ll None with
    | Some s => Some s
    | None => cur
    end.
Proof.
  induction pats as [|[s p] rest IH]; cbn [scan_patterns]; [reflexivity|].
  destruct (Py.re_search p ll && (Py.len line <? 150)); [reflexivity|exact IH].
Qed.

Lemma current_section_loop_body i line st :
  current_section (loop_body i line st)
  = match header_of line with
    | Some s => Some s
    | None => current_section st
    end.
Proof. unfold loop_body, header_of. cbn [current_section]. apply scan_patterns_default. Qed.

(** On a line shorter than 150 characters the scan returns the first
    pattern, in enumeration order, that is found in the line. *)
Lemma scan_patterns_short pats line cur :
  Py.len line < 150 ->
  scan_patterns pats line (Py.lower line) cur
  = match map fst (filter (fun sp : section * list string =>
                             Py.re_search (snd sp) (Py.lower line)) pats) with
    | s :: _ => Some s
    | [] => cur
    end.
Proof.
  intros Hlen. apply Nat.ltb_lt in Hlen.
  induction pats as [|[s p] rest IH]; cbn [scan_patterns filter map fst snd]; [reflexivity|].
  rewrite Hlen, andb_true_r.
  destruct (Py.re_search p (Py.lower line)); [reflexivity|exact IH].
Qed.

Lemma header_of_short line :
  Py.len line < 150 -> header_of line = hd_error (matching_sections line).
Proof.
  intros H. unfold header_of, matching_sections.
  rewrite scan_patterns_short by exact H.
  destruct (map fst _); reflexivity.
Qed.

Lemma header_of_long line : 150 <= Py.len line -> header_of line = None.
Proof.
  intros H. unfold header_of.
  assert (Hb : (Py.len line <? 150) = false) by (apply Nat.ltb_ge; exact H).
  induction section_patterns as [|[s p] rest IH]; cbn [scan_patterns]; [reflexivity|].
  rewrite Hb, andb_false_r. exact IH.
Qed.

Lemma header_of_no_match line : matching_sections line = [] -> header_of line = None.
Proof.
  intros H. destruct (Nat.lt_ge_cases (Py.len line) 150) as [Hl|Hl].
  - rewrite header_of_short by exact Hl. rewrite H. reflexivity.
  - apply header_of_long. exact Hl.
Qed.

(** ** Invariants of the loop *)

Lemma run_loop_app i pre post st :
  run_loop i (pre ++ post)%list st
  = run_loop (i + List.length pre) post (run_loop i pre st).
Proof.
  revert i st. induction pre as [|l pre IH]; intros i st; cbn [run_loop app List.length].
  - rewrite Nat.add_0_r. reflexivity.
  - rewrite IH. f_equal. lia.
Qed.

(** A property of every buffer that each iteration keeps is kept by the run. *)
Lemma run_loop_invariant (P : Sections -> Prop) :
  (forall i line st, P (sections st) -> P (sections (loop_body i line st))) ->
  forall lines i st, P (sections st) -> P (sections (run_loop i lines st)).
Proof.
  intros Hstep lines. induction lines as [|l rest IH]; intros i st H; cbn [run_loop].
  - exact H.
  - apply IH, Hstep, H.
Qed.

Lemma loop_body_capped i line st :
  capped (sections st) -> capped (sections (loop_body i line st)).
Proof.
  intros H k. rewrite buffer_loop_body.
  destruct (appends _ line (sections st) k) eqn:E; [|apply H].
  apply appends_true in E as (_ & _ & Hlt).
  rewrite length_app. cbn [List.length]. lia.
Qed.

Lemma loop_body_long_lines i line st :
  long_lines (sections st) -> long_lines (sections (loop_body i line st)).
Proof.
  intros H k l. rewrite buffer_loop_body.
  destruct (appends _ line (sections st) k) eqn:E; [|apply H].
  apply appends_true in E as (_ & Hlen & _).
  intros Hin. apply in_app_or in Hin as [Hin|[<-|[]]]; [exact (H k l Hin)|exact Hlen].
Qed.

(** Buffers only grow, and only at their end. *)
Lemma run_loop_extends k lines i st :
  exists more,
    buffer k (sections (run_loop i lines st))
    = (buffer k (sections st) ++ more)%list.
Proof.
  revert i st. induction lines as [|l rest IH]; intros i st; cbn [run_loop].
  - exists []. rewrite app_nil_r. reflexivity.
  - destruct (IH (S i) (loop_body i l st)) as [more Hmore].
    rewrite Hmore, buffer_loop_body.
    destruct (appends _ l (sections st) k).
    + exists (l :: more). rewrite <- app_assoc. reflexivity.
    + exists more. reflexivity.
Qed.

(** While no line selects the section [k], its buffer is left alone. *)
Lemma run_loop_not_selected k lines i st :
  (forall l, In l lines -> header_of l <> Some k) ->
  current_section st <> Some k ->
  buffer k (sections (run_loop i lines st)) = buffer k (sections st)
  /\ current_section (run_loop i lines st) <> Some k.
Proof.
  revert i st. induction lines as [|l rest IH]; intros i st Hno Hcur; cbn [run_loop].
  - split; [reflexivity|exact Hcur].
  - assert (Hcur' : current_section (loop_body i l st) <> Some k).
    { rewrite current_section_loop_body.
      specialize (Hno l (or_introl eq_refl)).
      destruct (header_of l); [exact Hno|exact Hcur]. }
    destruct (IH (S i) (loop_body i l st)) as [Hb Hc].
    + intros l' Hin. apply Hno. right. exact Hin.
    + exact Hcur'.
    + split; [|exact Hc].
      rewrite Hb, buffer_loop_body.
      destruct (appends _ l (sections st) k) eqn:E; [|reflexivity].
      apply appends_true in E as (E & _). contradiction.
Qed.

(** While the current section is [k] and no line selects a section, every
    line longer than 20 characters goes to the buffer [k] until it is full. *)
Lemma run_loop_fill k lines i st :
  current_section st = Some k ->
  List.length (buffer k (sections st)) <= 50 ->
  Forall (fun l => 20 < Py.len l /\ header_of l = None) lines ->
  buffer k (sections (run_loop i lines st))
  = firstn 50 (buffer k (sections st) ++ lines)%list.
Proof.
  revert i st. induction lines as [|l rest IH]; intros i st Hcur Hcap Hall; cbn [run_loop].
  - rewrite app_nil_r, firstn_all2 by exact Hcap. reflexivity.
  - inversion Hall as [|? ? [Hlen Hhd] Hrest]; subst.
    assert (Hcur' : current_section (loop_body i l st) = Some k).
    { rewrite current_section_loop_body, Hhd. exact Hcur. }
    assert (Hb := buffer_loop_body i l st k).
    rewrite Hcur' in Hb. unfold appends in Hb.
    destruct (section_eq_dec k k) as [_|Hne]; [|contradiction Hne; reflexivity].
    apply Nat.ltb_lt in Hlen. rewrite Hlen in Hb. cbn [andb] in Hb.
    rewrite IH; [|exact Hcur'| |exact Hrest].
    + rewrite Hb.
      destruct (List.length (buffer k (sections st)) <? 50) eqn:E.
      * rewrite <- app_assoc. reflexivity.
      * apply Nat.ltb_ge in E.
        rewrite !firstn_app.
        replace (50 - List.length (buffer k (sections st))) with 0 by lia.
        reflexivity.
    + rewrite Hb.
      destruct (List.length (buffer k (sections st)) <? 50) eqn:E.
      * apply Nat.ltb_lt in E. rewrite length_app. cbn [List.length]. lia.
      * exact Hcap.
Qed.

Lemma capped_empty : capped empty_sections.
Proof. intros k. destruct k; cbn; lia. Qed.

Lemma long_lines_empty : long_lines empty_sections.
Proof. intros k l. destruct k; cbn; intros []. Qed.

(** ** Section headers (C1) *)

(** C1, as the code has it: on a line shorter than 150 characters that
    matches two or more of the seven section patterns, the iteration leaves
    [current_section] at the first matching pattern of the enumeration
    order (abstract, introduction, methodology, results, discussion,
    conclusion, references): the scan stops at its first match. *)
Theorem first_matching_pattern_wins (i : nat) (line : string) (st : loop_state) :
  Py.len line < 150 ->
  2 <= List.length (matching_sections line) ->
  current_section (loop_body i line st) = hd_error (matching_sections line)
  /\ exists s others, matching_sections line = s :: others
                      /\ current_section (loop_body i line st) = Some s.
Proof.
  intros Hlen Htwo.
  rewrite current_section_loop_body, header_of_short by exact Hlen.
  destruct (matching_sections line) as [|s others] eqn:E; [cbn in Htwo; lia|].
  split; [reflexivity|]. exists s, others. split; reflexivity.
Qed.

Lemma first_matching_pattern_wins_witness :
  current_section (loop_body 0 "data and methods" initial_loop_state)
  = Some Methodology.
Proof.
  destruct (first_matching_pattern_wins 0 "data and methods" initial_loop_state)
    as [H _].
  - vm_compute. lia.
  - vm_compute. lia.
  - rewrite H. vm_compute. reflexivity.
Defined.

(** C1, as the specification words it, fails: a line with the word [summary] matches
    the patterns of abstract and of conclusion, and the section assigned is
    abstract, the first of the two, not conclusion, the last. *)
Lemma last_matching_pattern_refuted :
  let line := "a summary of the main contributions" in
  Py.len line < 150
  /\ matching_sections line = [Abstract; Conclusion]
  /\ current_section (loop_body 4 line initial_loop_state) = Some Abstract
  /\ current_section (loop_body 4 line initial_loop_state)
     <> Some (last (matching_sections line) Abstract)
  /\ abstract (analyze_paper_structure line) = [line]
  /\ conclusion (analyze_paper_structure line) = [].
Proof.
  cbv zeta. repeat split; try (vm_compute; (reflexivity || lia)).
  vm_compute. discriminate.
Qed.

(** ** The cap on the buffers (C2) *)

(** C2: whatever the text, each of the seven line buffers of the mapping
    that [analyze_paper_structure] returns holds at most 50 lines. *)
Theorem buffers_at_most_50 (text : string) :
  List.length (abstract (analyze_paper_structure text)) <= 50
  /\ List.length (introduction (analyze_paper_structure text)) <= 50
  /\ List.length (methodology (analyze_paper_structure text)) <= 50
  /\ List.length (results (analyze_paper_structure text)) <= 50
  /\ List.length (discussion (analyze_paper_structure text)) <= 50
  /\ List.length (conclusion (analyze_paper_structure text)) <= 50
  /\ List.length (references (analyze_paper_structure text)) <= 50.
Proof.
  assert (H : capped (analyze_paper_structure text)).
  { unfold analyze_paper_structure.
    apply (run_loop_invariant capped loop_body_capped), capped_empty. }
  repeat split.
  - exact (H Abstract).
  - exact (H Introduction).
  - exact (H Methodology).
  - exact (H Results).
  - exact (H Discussion).
  - exact (H Conclusion).
  - exact (H References).
Qed.

(** ** Title and authors (C3) *)

Lemma last_cons {A : Type} (a d : A) (l : list A) : last (a :: l) d = last l a.
Proof.
  revert a d. induction l as [|b l IH]; intros a d; [reflexivity|].
  change (last (a :: b :: l) d) with (last (b :: l) d).
  rewrite (IH b d), (IH b a). reflexivity.
Qed.

Lemma front_matter_title i line v :
  front_matter i line (Py.lower line) = Some (SetTitle v) ->
  i = 0 /\ v = line /\ 10 < Py.len line < 200.
Proof.
  unfold front_matter.
  destruct ((i =? 0) && (10 <? Py.len line) && (Py.len line <? 200)) eqn:E.
  - intros H. injection H as <-.
    apply andb_prop in E as [E E3]. apply andb_prop in E as [E1 E2].
    apply Nat.eqb_eq in E1. apply Nat.ltb_lt in E2, E3. auto.
  - destruct ((i <? 5) && _); discriminate.
Qed.

Lemma front_matter_authors i line v :
  front_matter i line (Py.lower line) = Some (SetAuthors v) ->
  i < 5 /\ v = line /\ Py.any_in academic_indicators (Py.lower line) = true.
Proof.
  unfold front_matter.
  destruct ((i =? 0) && (10 <? Py.len line) && (Py.len line <? 200)); [discriminate|].
  destruct ((i <? 5) && Py.any_in academic_indicators (Py.lower line)) eqn:E; [|discriminate].
  intros H. injection H as <-.
  apply andb_prop in E as [E1 E2]. apply Nat.ltb_lt in E1. auto.
Qed.

Lemma in_front_writes i w lines i0 :
  In (i, w) (front_writes i0 lines) ->
  exists line,
    i0 <= i /\ nth_error lines (i - i0) = Some line
    /\ front_matter i line (Py.lower line) = Some w.
Proof.
  revert i0. induction lines as [|l rest IH]; intros i0 Hin; cbn [front_writes] in Hin.
  - destruct Hin.
  - assert (Hrest : In (i, w) (front_writes (S i0) rest) ->
                    exists line, i0 <= i /\ nth_error (l :: rest) (i - i0) = Some line
                                 /\ front_matter i line (Py.lower line) = Some w).
    { intros H. destruct (IH _ H) as (line & Hle & Hnth & Hfm).
      exists line. split; [lia|]. split; [|exact Hfm].
      replace (i - i0) with (S (i - S i0)) by lia. exact Hnth. }
    destruct (front_matter i0 l (Py.lower l)) as [w0|] eqn:E; [|exact (Hrest Hin)].
    destruct Hin as [Heq|Hin]; [|exact (Hrest Hin)].
    injection Heq as <- <-. exists l. split; [lia|].
    rewrite Nat.sub_diag. split; [reflexivity|exact E].
Qed.

Lemma in_title_writes i v ws :
  In (i, v) (title_writes ws) <-> In (i, SetTitle v) ws.
Proof.
  unfold title_writes. rewrite in_flat_map. split.
  - intros [[j w] [Hin Hv]]. destruct w as [u|u]; cbn in Hv; [|destruct Hv].
    destruct Hv as [Heq|[]]. injection Heq as <- <-. exact Hin.
  - intros Hin. exists (i, SetTitle v). split; [exact Hin|left; reflexivity].
Qed.

Lemma in_authors_writes i v ws :
  In (i, v) (authors_writes ws) <-> In (i, SetAuthors v) ws.
Proof.
  unfold authors_writes. rewrite in_flat_map. split.
  - intros [[j w] [Hin Hv]]. destruct w as [u|u]; cbn in Hv; [destruct Hv|].
    destruct Hv as [Heq|[]]. injection Heq as <- <-. exact Hin.
  - intros Hin. exists (i, SetAuthors v). split; [exact Hin|left; reflexivity].
Qed.

Lemma title_writes_count lines i :
  List.length (title_writes (front_writes i lines)) <= 1 - i.
Proof.
  revert i. induction lines as [|l rest IH]; intros i; cbn [front_writes].
  - cbn. lia.
  - specialize (IH (S i)).
    destruct (front_matter i l (Py.lower l)) as [[v|v]|] eqn:E.
    + apply front_matter_title in E as (-> & _).
      cbn [title_writes flat_map snd fst app List.length] in *.
      unfold title_writes in IH. lia.
    + cbn [title_writes flat_map snd fst app] in *. unfold title_writes in IH. lia.
    + lia.
Qed.

Lemma authors_writes_count lines i :
  List.length (authors_writes (front_writes i lines)) <= 5 - i.
Proof.
  revert i. induction lines as [|l rest IH]; intros i; cbn [front_writes].
  - cbn. lia.
  - specialize (IH (S i)).
    destruct (front_matter i l (Py.lower l)) as [[v|v]|] eqn:E.
    + cbn [authors_writes flat_map snd fst app] in *. unfold authors_writes in IH. lia.
    + apply front_matter_authors in E as (Hi & _).
      cbn [authors_writes flat_map snd fst app List.length] in *.
      unfold authors_writes in IH. lia.
    + lia.
Qed.

Lemma title_loop_body i line st :
  title (sections (loop_body i line st))
  = match front_matter i line (Py.lower line) with
    | Some (SetTitle v) => v
    | _ => title (sections st)
    end.
Proof.
  unfold loop_body. cbn [sections]. rewrite title_add_content.
  destruct (front_matter i line (Py.lower line)) as [[v|v]|]; reflexivity.
Qed.

Lemma authors_loop_body i line st :
  authors (sections (loop_body i line st))
  = match front_matter i line (Py.lower line) with
    | Some (SetAuthors v) => v
    | _ => authors (sections st)
    end.
Proof.
  unfold loop_body. cbn [sections]. rewrite authors_add_content.
  destruct (front_matter i line (Py.lower line)) as [[v|v]|]; reflexivity.
Qed.

(** The value of a string-valued key after the run is the last one written. *)
Lemma run_loop_title lines i st :
  title (sections (run_loop i lines st))
  = last (map snd (title_writes (front_writes i lines))) (title (sections st)).
Proof.
  revert i st. induction lines as [|l rest IH]; intros i st; cbn [run_loop front_writes].
  - reflexivity.
  - rewrite IH, title_loop_body.
    destruct (front_matter i l (Py.lower l)) as [[v|v]|]; try reflexivity.
    cbn [title_writes flat_map snd fst app map]. rewrite last_cons. reflexivity.
Qed.

Lemma run_loop_authors lines i st :
  authors (sections (run_loop i lines st))
  = last (map snd (authors_writes (front_writes i lines))) (authors (sections st)).
Proof.
  revert i st. induction lines as [|l rest IH]; intros i st; cbn [run_loop front_writes].
  - reflexivity.
  - rewrite IH, authors_loop_body.
    destruct (front_matter i l (Py.lower l)) as [[v|v]|]; try reflexivity.
    cbn [authors_writes flat_map snd fst app map]. rewrite last_cons. reflexivity.
Qed.

(** C3, as the code has it: during one run [sections['title']] is assigned
    at most once, only from the line of index 0 and only when its length is
    strictly between 10 and 200; [sections['authors']] is assigned only from
    lines of index below 5 that contain an academic indicator, hence at most
    five times, and each key ends with the last value assigned to it (the
    empty string when there was none). *)
Theorem front_matter_assignments (text : string) :
  let lines := paper_lines text in
  let ws := front_writes 0 lines in
  title (analyze_paper_structure text) = last (map snd (title_writes ws)) ""
  /\ authors (analyze_paper_structure text) = last (map snd (authors_writes ws)) ""
  /\ List.length (title_writes ws) <= 1
  /\ (forall i v, In (i, v) (title_writes ws) ->
        i = 0 /\ nth_error lines 0 = Some v /\ 10 < Py.len v < 200)
  /\ List.length (authors_writes ws) <= 5
  /\ (forall i v, In (i, v) (authors_writes ws) ->
        i < 5 /\ nth_error lines i = Some v
        /\ Py.any_in academic_indicators (Py.lower v) = true).
Proof.
  cbv zeta. unfold analyze_paper_structure.
  split; [apply run_loop_title|]. split; [apply run_loop_authors|].
  split; [apply (title_writes_count (paper_lines text) 0)|]. split; [|split].
  - intros i v Hin. apply in_title_writes, in_front_writes in Hin.
    destruct Hin as (line & _ & Hnth & Hfm).
    apply front_matter_title in Hfm as (-> & -> & Hlen).
    split; [reflexivity|]. split; [exact Hnth|exact Hlen].
  - apply (authors_writes_count (paper_lines text) 0).
  - intros i v Hin. apply in_authors_writes, in_front_writes in Hin.
    destruct Hin as (line & _ & Hnth & Hfm).
    apply front_matter_authors in Hfm as (Hi & -> & Hind).
    rewrite Nat.sub_0_r in Hnth. auto.
Qed.

(** C3, as the specification words it, fails for the authors: two of the
    first five lines carry an indicator, both are assigned in turn, and the
    key ends with the second. *)
Lemma authors_assigned_twice :
  authors_writes (front_writes 0 (paper_lines two_author_document))
  = [(1, "Ada Byron, Department of Computing"); (2, "ada@example.org")]
  /\ ~ List.length
        (authors_writes (front_writes 0 (paper_lines two_author_document))) <= 1
  /\ authors (analyze_paper_structure two_author_document) = "ada@example.org".
Proof.
  split; [vm_compute; reflexivity|].
  split; [vm_compute; lia|vm_compute; reflexivity].
Qed.

Lemma front_matter_assignments_witness :
  2 < 5
  /\ nth_error (paper_lines two_author_document) 2 = Some "ada@example.org"
  /\ Py.any_in academic_indicators (Py.lower "ada@example.org") = true.
Proof.
  apply (proj2 (proj2 (proj2 (proj2 (proj2
           (front_matter_assignments two_author_document)))))
           2 "ada@example.org").
  vm_compute. right. left. reflexivity.
Defined.

(** ** The abstract of a labelled document (C4) *)

(** C4: when the non-empty trimmed lines of a document are the line
    [Abstract] followed by more than five content lines, each longer than 20
    characters and matching none of the section patterns, the abstract
    buffer holds exactly the content lines, in their order, cut at 50. *)
Theorem abstract_round_trip (text : string) (content : list string) :
  paper_lines text = "Abstract" :: content ->
  5 < List.length content ->
  Forall (fun l => 20 < Py.len l /\ matching_sections l = []) content ->
  abstract (analyze_paper_structure text) = firstn 50 content.
Proof.
  intros Hlines _ Hall. unfold analyze_paper_structure. rewrite Hlines.
  cbn [run_loop].
  change (abstract ?d) with (buffer Abstract d).
  rewrite run_loop_fill.
  - vm_compute (loop_body 0 "Abstract" initial_loop_state). reflexivity.
  - vm_compute. reflexivity.
  - vm_compute. lia.
  - eapply Forall_impl; [|exact Hall].
    intros l [Hlen Hno]. split; [exact Hlen|apply header_of_no_match, Hno].
Qed.

Lemma abstract_round_trip_witness :
  abstract (analyze_paper_structure
              (Py.join newline ("Abstract" :: six_line_abstract)))
  = six_line_abstract.
Proof.
  apply (abstract_round_trip
           (Py.join newline ("Abstract" :: six_line_abstract)) six_line_abstract).
  - vm_compute. reflexivity.
  - vm_compute. lia.
  - repeat constructor; vm_compute; lia.
Defined.

(** ** What a buffer can hold (C10) *)

(** C10: every line kept in a buffer is longer than 20 characters.  Hence
    the line that introduces a section (the first line of the document that
    selects it) is itself the first entry of that section's buffer when it is
    longer than 20 characters, and the 8-character line [Abstract] is in no
    buffer. *)
Theorem buffered_lines_longer_than_20 (text : string) :
  (forall k l, In l (buffer k (analyze_paper_structure text)) -> 20 < Py.len l)
  /\ (forall before heading after k,
        paper_lines text = (before ++ heading :: after)%list ->
        (forall l, In l before -> header_of l <> Some k) ->
        header_of heading = Some k ->
        20 < Py.len heading ->
        hd_error (buffer k (analyze_paper_structure text)) = Some heading)
  /\ (forall k, ~ In "Abstract" (buffer k (analyze_paper_structure text))).
Proof.
  assert (Hlong : long_lines (analyze_paper_structure text)).
  { unfold analyze_paper_structure.
    apply (run_loop_invariant long_lines loop_body_long_lines), long_lines_empty. }
  split; [exact Hlong|]. split.
  - intros before heading after k Hlines Hbefore Hhead Hlen.
    unfold analyze_paper_structure. rewrite Hlines, run_loop_app. cbn [run_loop].
    destruct (run_loop_not_selected k before 0 initial_loop_state Hbefore)
      as [Hbuf Hcur]; [discriminate|].
    set (st := run_loop 0 before initial_loop_state) in *.
    set (i := 0 + List.length before).
    destruct (run_loop_extends k after (S i) (loop_body i heading st)) as [more ->].
    rewrite buffer_loop_body, current_section_loop_body, Hhead.
    unfold appends. rewrite Hbuf.
    destruct (section_eq_dec k k) as [_|Hne]; [|contradiction Hne; reflexivity].
    apply Nat.ltb_lt in Hlen. rewrite Hlen.
    replace (buffer k (sections initial_loop_state)) with (@nil string)
      by (destruct k; reflexivity).
    reflexivity.
  - intros k Hin. apply Hlong in Hin. vm_compute in Hin. lia.
Qed.

Lemma buffered_lines_longer_than_20_witness :
  paper_lines methods_document
  = ["Notes"; "Materials and Methods of the Study";
     "Samples were taken daily for a month."]
  /\ hd_error (buffer Methodology (analyze_paper_structure methods_document))
     = Some "Materials and Methods of the Study".
Proof.
  split; [vm_compute; reflexivity|].
  apply (proj1 (proj2 (buffered_lines_longer_than_20 methods_document))
           ["Notes"] "Materials and Methods of the Study"
           ["Samples were taken daily for a month."] Methodology).
  - vm_compute. reflexivity.
  - intros l [<-|[]]. vm_compute. discriminate.
  - vm_compute. reflexivity.
  - vm_compute. lia.
Defined.

(** ** The sparse-structure fallback of the summary (C5) *)

Lemma append_assoc (a b c : string) : (a ++ b) ++ c = a ++ (b ++ c).
Proof. induction a as [|x a IH]; cbn; [reflexivity|rewrite IH; reflexivity]. Qed.

(** Joining a list that ends with two more parts ends with those parts. *)
Lemma join_two_more sep parts a b :
  exists before, Py.join sep (parts ++ [a; b])%list = before ++ a ++ sep ++ b.
Proof.
  unfold Py.join. induction parts as [|x rest [before IH]].
  - exists "". reflexivity.
  - exists (x ++ sep ++ before).
    change ((x :: rest) ++ [a; b])%list with (x :: (rest ++ [a; b]))%list.
    cbn [String.concat]. rewrite IH.
    destruct (rest ++ [a; b])%list eqn:E.
    + destruct rest; discriminate.
    + rewrite !append_assoc. reflexivity.
Qed.

Lemma first_title_line_length lines : List.length (first_title_line lines) <= 1.
Proof.
  induction lines as [|l rest IH]; cbn [first_title_line]; [cbn; lia|].
  destruct ((10 <? Py.len l) && (Py.len l <? 200)); [cbn; lia|exact IH].
Qed.

Lemma title_part_length text d : List.length (title_part text d) <= 1.
Proof.
  unfold title_part. destruct (Py.truthy (title d)); [cbn; lia|].
  apply first_title_line_length.
Qed.

Lemma authors_part_length d : List.length (authors_part d) <= 1.
Proof. unfold authors_part. destruct (Py.truthy (authors d)); cbn; lia. Qed.

(** Without a header line every buffer stays empty. *)
Lemma no_header_no_buffer (text : string) :
  (forall l, In l (paper_lines text) -> Py.len l < 150 -> matching_sections l = []) ->
  forall k, buffer k (analyze_paper_structure text) = [].
Proof.
  intros Hno k. unfold analyze_paper_structure.
  destruct (run_loop_not_selected k (paper_lines text) 0 initial_loop_state) as [H _].
  - intros l Hin. destruct (Nat.lt_ge_cases (Py.len l) 150) as [Hl|Hl].
    + rewrite header_of_no_match by (apply Hno; assumption). discriminate.
    + rewrite header_of_long by exact Hl. discriminate.
  - discriminate.
  - rewrite H. destruct k; reflexivity.
Qed.

Lemma no_buffer_no_key_points d :
  (forall k, buffer k d = []) -> key_points_part d = [].
Proof.
  intros H.
  assert (Hk : key_points d = []).
  { unfold key_points, abstract_point, bullet_points, section_bullets.
    cbn [flat_map].
    rewrite (H Introduction), (H Methodology), (H Results), (H Conclusion).
    pose proof (H Abstract) as Ha. cbn [buffer] in Ha. rewrite Ha. reflexivity. }
  unfold key_points_part. rewrite Hk. reflexivity.
Qed.

(** C5: when no non-empty trimmed line shorter than 150 characters matches
    any of the seven section patterns, fewer than three parts exist when the
    sparse-structure test is reached, so the summary ends with the
    [Document Content] header followed by the overview: the text itself when
    it has at most 400 characters, its first 400 characters followed by
    three dots otherwise. *)
Theorem sparse_document_falls_back (text : string) :
  (forall l, In l (paper_lines text) -> Py.len l < 150 -> matching_sections l = []) ->
  let parts := summary_parts_before_check text in
  let sep := newline ++ newline in
  List.length parts < 3
  /\ generate_comprehensive_summary text
     = Py.join sep (parts ++ [document_content_header; overview text])%list
  /\ (exists before,
        generate_comprehensive_summary text
        = before ++ document_content_header ++ sep ++ overview text)
  /\ (Py.len text <= 400 -> overview text = text)
  /\ (400 < Py.len text -> overview text = Py.take 400 text ++ "...").
Proof.
  intros Hno parts sep.
  assert (Hlen : List.length parts < 3).
  { subst parts. unfold summary_parts_before_check.
    rewrite (no_buffer_no_key_points _ (no_header_no_buffer text Hno)).
    rewrite app_nil_r, length_app.
    pose proof (title_part_length text (analyze_paper_structure text)).
    pose proof (authors_part_length (analyze_paper_structure text)). lia. }
  assert (Hgen : generate_comprehensive_summary text
                 = Py.join sep (parts ++ [document_content_header; overview text])%list).
  { unfold generate_comprehensive_summary. fold parts. fold sep.
    apply Nat.ltb_lt in Hlen. rewrite Hlen. reflexivity. }
  split; [exact Hlen|]. split; [exact Hgen|]. split; [|split].
  - rewrite Hgen. apply join_two_more.
  - intros H. unfold overview. apply Nat.ltb_ge in H. rewrite H. reflexivity.
  - intros H. unfold overview. apply Nat.ltb_lt in H. rewrite H. reflexivity.
Qed.

Lemma sparse_document_falls_back_witness :
  generate_comprehensive_summary plain_document
  = "**📄 Title:** A line of plain text with nothing in it"
    ++ newline ++ newline ++ document_content_header
    ++ newline ++ newline ++ plain_document.
Proof.
  destruct (sparse_document_falls_back plain_document) as (_ & H & _).
  - intros l Hin _. vm_compute in Hin.
    destruct Hin as [<-|[<-|[]]]; vm_compute; reflexivity.
  - rewrite H. vm_compute. reflexivity.
Defined.

(** ** Canned questions (C6) *)

(** C6: for every document, the question [what is AI] is answered with the
    canned definition of AI, so the answer is the same for any two
    documents. *)
Theorem what_is_ai_canned :
  (forall text,
     answer_question_offline "what is AI" text
     = "**🤖 AI refers to machines that can perform tasks typically requiring human intelligence.**")
  /\ (forall text1 text2,
        answer_question_offline "what is AI" text1
        = answer_question_offline "what is AI" text2).
Proof.
  assert (H : forall text,
             resolve "what is AI" text
             = Canned "AI refers to machines that can perform tasks typically requiring human intelligence.").
  { intros text. unfold resolve. cbv zeta.
    generalize (analyze_paper_structure text). intros d.
    vm_compute (Py.strip (Py.lower "what is AI")).
    unfold simple_questions. cbn [canned_answer].
    vm_compute (Py.contains "what is artificial intelligence" "what is ai").
    vm_compute (Py.contains "what is ai" "what is ai").
    reflexivity. }
  split.
  - intros text. unfold answer_question_offline. rewrite H. reflexivity.
  - intros text1 text2. unfold answer_question_offline. rewrite !H. reflexivity.
Qed.

(** ** Short questions (C7) *)

Lemma canned_answer_not_scan table question_lower o :
  canned_answer table question_lower = Some o -> from_keyword_scan o = false.
Proof.
  induction table as [|[q a] rest IH]; cbn [canned_answer]; [discriminate|].
  destruct (Py.contains q question_lower); [|exact IH].
  intros H. injection H as <-. reflexivity.
Qed.

Lemma definition_scan_not_scan term lines :
  from_keyword_scan (definition_scan term lines) = false.
Proof.
  induction lines as [|l rest IH]; cbn [definition_scan]; [reflexivity|].
  destruct (Py.contains term (Py.lower l) && (20 <? Py.len l) && (Py.len l <? 300));
    [reflexivity|exact IH].
Qed.

Lemma definition_answer_not_scan question_lower text o :
  definition_answer question_lower text = Some o -> from_keyword_scan o = false.
Proof.
  unfold definition_answer.
  destruct (Py.contains "what is" question_lower || Py.contains "what are" question_lower);
    [|discriminate].
  match goal with |- context [Py.truthy ?t] => destruct (Py.truthy t) end; [|discriminate].
  intros H. injection H as <-. apply definition_scan_not_scan.
Qed.

Lemma category_answer_not_scan question_lower text d o :
  category_answer question_lower text d = Some o -> from_keyword_scan o = false.
Proof.
  unfold category_answer.
  repeat match goal with
         | |- context [if Py.any_in ?ws question_lower then _ else _] =>
             destruct (Py.any_in ws question_lower)
         end;
    try discriminate;
    try (intros H; injection H as <-;
         repeat match goal with
                | |- context [nonempty ?b] => destruct (nonempty b)
                end; reflexivity).
  apply definition_answer_not_scan.
Qed.

(** A question of at most four words: the earlier rules or the guidance. *)
Lemma resolve_short question text :
  List.length (Py.split_ws question) <= 4 ->
  from_keyword_scan (resolve question text) = false.
Proof.
  intros Hshort. unfold resolve. cbv zeta.
  destruct (canned_answer _ _) as [o|] eqn:Ec.
  - exact (canned_answer_not_scan _ _ _ Ec).
  - destruct (category_answer _ _ _) as [o|] eqn:Eg.
    + exact (category_answer_not_scan _ _ _ _ Eg).
    + apply Nat.leb_le in Hshort. rewrite Hshort. reflexivity.
Qed.

(** C7, as the code has it: for a three-word question and any document the
    keyword-based line scan is never reached; the answer is the generic
    guidance whenever none of the earlier rules (canned questions, question
    categories, definition lookup) returns one. *)
Theorem three_word_question (question text : string) :
  List.length (Py.split_ws question) = 3 ->
  from_keyword_scan (resolve question text) = false
  /\ (canned_answer (simple_questions (analyze_paper_structure text))
        (Py.strip (Py.lower question)) = None ->
      category_answer (Py.strip (Py.lower question)) text
        (analyze_paper_structure text) = None ->
      answer_question_offline question text
      = "**🤖 Please ask specific questions about this research paper's content, methods, or findings**").
Proof.
  intros Hthree. split.
  - apply resolve_short. lia.
  - intros Hc Hg. unfold answer_question_offline, resolve. cbv zeta.
    rewrite Hc, Hg, Hthree. reflexivity.
Qed.

Lemma three_word_question_witness :
  List.length (Py.split_ws "tell me more") = 3
  /\ answer_question_offline "tell me more" plain_document
     = "**🤖 Please ask specific questions about this research paper's content, methods, or findings**".
Proof.
  split; [vm_compute; reflexivity|].
  apply (proj2 (three_word_question "tell me more" plain_document eq_refl)).
  - vm_compute. reflexivity.
  - vm_compute. reflexivity.
Defined.

(** C7, as the specification words it, fails: the three-word question
    [who wrote this] is answered by the authors rule, not by the generic
    guidance. *)
Lemma three_word_question_answered :
  List.length (Py.split_ws "who wrote this") = 3
  /\ resolve "who wrote this" plain_document
     = AuthorsReply (analyze_paper_structure plain_document)
  /\ answer_question_offline "who wrote this" plain_document
     = "**👥 Authors not specified**"
  /\ answer_question_offline "who wrote this" plain_document
     <> "**🤖 Please ask specific questions about this research paper's content, methods, or findings**".
Proof.
  repeat split; try (vm_compute; reflexivity).
  vm_compute. discriminate.
Qed.

(** ** Determinism (C8) *)

Lemma process_text_twice st text :
  process_text (fst (process_text st text)) text = process_text st text.
Proof.
  unfold process_text.
  destruct (Py.truthy text && (100 <? Py.len (Py.strip text))); reflexivity.
Qed.

(** C8: two runs of [analyze_paper_structure] on identical text yield the
    same mapping, key by key; and processing the same text a second time
    leaves the session, and what is shown, as the first time. *)
Theorem analysis_deterministic (text1 text2 : string) :
  text1 = text2 ->
  title (analyze_paper_structure text1) = title (analyze_paper_structure text2)
  /\ authors (analyze_paper_structure text1) = authors (analyze_paper_structure text2)
  /\ (forall k, buffer k (analyze_paper_structure text1)
                = buffer k (analyze_paper_structure text2))
  /\ analyze_paper_structure text1 = analyze_paper_structure text2
  /\ (forall st, process_text (fst (process_text st text1)) text2
                 = process_text st text1).
Proof.
  intros <-. repeat split. intros st. apply process_text_twice.
Qed.

Lemma analysis_deterministic_witness :
  analyze_paper_structure methods_document = analyze_paper_structure methods_document.
Proof.
  exact (proj1 (proj2 (proj2 (proj2
           (analysis_deterministic methods_document methods_document eq_refl))))).
Defined.

(** ** Insufficient text (C9) *)

Section UploadFacts.

Context {uploaded_file : Type}.
Variables (file_name file_type : uploaded_file -> string).
Variable pdf_pages_text : uploaded_file -> string + string.
Variable txt_content : uploaded_file -> string.

(** C9: when the extracted text is empty, or its stripped length does not
    exceed 100, the upload shows the insufficient-text error that asks for
    another file, after the file banner and whatever the extraction showed,
    and the session is left as it was: the text is not stored and no
    analysis result is stored or shown. *)
Theorem insufficient_text_rejected (st : session_state) (f : uploaded_file) :
  let extracted := extract_text file_type pdf_pages_text txt_content f in
  fst extracted = "" \/ Py.len (Py.strip (fst extracted)) <= 100 ->
  upload file_name file_type pdf_pages_text txt_content st f
  = (st,
     (Info ("📁 **File:** " ++ file_name f ++ " | **Type:** " ++ file_type f)
        :: snd extracted
        ++ [Error "❌ Could not extract sufficient text. Please try another file."])%list).
Proof.
  cbv zeta. intros H. unfold upload.
  destruct (extract_text file_type pdf_pages_text txt_content f) as [text shown].
  cbn [fst snd] in *.
  assert (E : Py.truthy text && (100 <? Py.len (Py.strip text)) = false).
  { destruct H as [->|H]; [reflexivity|].
    apply Nat.ltb_ge in H. rewrite H. apply andb_false_r. }
  unfold process_text. rewrite E. reflexivity.
Qed.

End UploadFacts.

Lemma insufficient_text_rejected_witness :
  upload (fun f : string => "notes.txt") (fun f => "text/plain")
    (fun f => inr "unreadable") (fun f => f) initial_session "   too short   "
  = (initial_session,
     [ Info "📁 **File:** notes.txt | **Type:** text/plain";
       Error "❌ Could not extract sufficient text. Please try another file." ]).
Proof.
  apply (insufficient_text_rejected (fun f : string => "notes.txt")
           (fun f : string => "text/plain") (fun f : string => inr "unreadable")
           (fun f : string => f) initial_session "   too short   ").
  right. vm_compute. lia.
Defined.

(** * Further properties of the code *)

(** ** What the segmentation keeps *)

Lemma title_value (lines : list string) :
  title (sections (run_loop 0 lines initial_loop_state))
  = match lines with
    | line :: _ =>
        if (10 <? Py.len line) && (Py.len line <? 200) then line else ""
    | [] => ""
    end.
Proof.
  rewrite run_loop_title.
  destruct lines as [|l rest]; [reflexivity|].
  cbn [front_writes].
  assert (Hrest : title_writes (front_writes 1 rest) = []).
  { pose proof (title_writes_count rest 1) as H.
    destruct (title_writes (front_writes 1 rest)); [reflexivity|cbn in H; lia]. }
  unfold front_matter. cbn [Nat.eqb andb].
  destruct ((10 <? Py.len l) && (Py.len l <? 200)).
  - cbn [title_writes flat_map snd fst app]. fold (title_writes (front_writes 1 rest)).
    rewrite Hrest. reflexivity.
  - destruct ((0 <? 5) && Py.any_in academic_indicators (Py.lower l)).
    + cbn [title_writes flat_map snd fst app]. fold (title_writes (front_writes 1 rest)).
      rewrite Hrest. reflexivity.
    + rewrite Hrest. reflexivity.
Qed.

(** X1: the title is the first non-empty trimmed line when that line has more
    than 10 and fewer than 200 characters, and the empty string in every
    other case. *)
Theorem title_is_first_line (text : string) :
  title (analyze_paper_structure text)
  = match paper_lines text with
    | line :: _ =>
        if (10 <? Py.len line) && (Py.len line <? 200) then line else ""
    | [] => ""
    end.
Proof.
  unfold analyze_paper_structure. rewrite title_value.
  destruct (paper_lines text); reflexivity.
Qed.

Lemma run_loop_subsequence k lines i st :
  exists more,
    buffer k (sections (run_loop i lines st))
    = (buffer k (sections st) ++ more)%list
    /\ subsequence more lines.
Proof.
  revert i st. induction lines as [|l rest IH]; intros i st; cbn [run_loop].
  - exists []. rewrite app_nil_r. split; [reflexivity|constructor].
  - destruct (IH (S i) (loop_body i l st)) as (more & Hmore & Hsub).
    rewrite Hmore, buffer_loop_body.
    destruct (appends _ l (sections st) k).
    + exists (l :: more). rewrite <- app_assoc. split; [reflexivity|].
      constructor. exact Hsub.
    + exists more. split; [reflexivity|]. constructor. exact Hsub.
Qed.

Lemma total_buffered_buffers d :
  total_buffered d
  = List.length (buffer Abstract d) + List.length (buffer Introduction d)
    + List.length (buffer Methodology d) + List.length (buffer Results d)
    + List.length (buffer Discussion d) + List.length (buffer Conclusion d)
    + List.length (buffer References d).
Proof. reflexivity. Qed.

(** One iteration adds one line to the buffers when a section is current,
    the line is longer than 20 characters and the buffer of the section is
    not full, and none otherwise. *)
Lemma total_buffered_loop_body i line st :
  total_buffered (sections (loop_body i line st))
  = total_buffered (sections st)
    + match current_section (loop_body i line st) with
      | Some s =>
          if (20 <? Py.len line) && (List.length (buffer s (sections st)) <? 50)
          then 1 else 0
      | None => 0
      end.
Proof.
  rewrite !total_buffered_buffers, !buffer_loop_body.
  destruct (current_section (loop_body i line st)) as [s|]; unfold appends.
  - destruct ((20 <? Py.len line) && (List.length (buffer s (sections st)) <? 50)) eqn:E;
      destruct s;
      repeat match goal with
             | |- context [section_eq_dec ?a ?b] =>
                 destruct (section_eq_dec a b); try discriminate
             end;
      try contradiction; rewrite ?E, ?length_app; cbn [List.length]; lia.
  - lia.
Qed.

Lemma total_buffered_run_loop lines i st :
  total_buffered (sections (run_loop i lines st))
  <= total_buffered (sections st) + List.length lines.
Proof.
  revert i st. induction lines as [|l rest IH]; intros i st; cbn [run_loop List.length].
  - lia.
  - specialize (IH (S i) (loop_body i l st)).
    rewrite total_buffered_loop_body in IH.
    destruct (current_section (loop_body i l st)) as [s|];
      [destruct ((20 <? Py.len l) && _)|]; lia.
Qed.

(** X2: every buffer is a subsequence of the non-empty trimmed lines of the
    document: it holds lines of the document only, in document order; and
    the seven buffers together hold no more lines than the document has. *)
Theorem buffers_come_from_document (text : string) :
  (forall k, subsequence (buffer k (analyze_paper_structure text)) (paper_lines text))
  /\ total_buffered (analyze_paper_structure text) <= List.length (paper_lines text).
Proof.
  split.
  - intros k. unfold analyze_paper_structure.
    destruct (run_loop_subsequence k (paper_lines text) 0 initial_loop_state)
      as (more & -> & Hsub).
    replace (buffer k (sections initial_loop_state)) with (@nil string)
      by (destruct k; reflexivity).
    exact Hsub.
  - unfold analyze_paper_structure.
    apply (total_buffered_run_loop (paper_lines text) 0 initial_loop_state).
Qed.

Lemma loop_body_room i line st n :
  (forall k, List.length (buffer k (sections st)) + S n <= 50) ->
  forall k, List.length (buffer k (sections (loop_body i line st))) + n <= 50.
Proof.
  intros H k. rewrite buffer_loop_body. specialize (H k).
  destruct (appends _ line (sections st) k); [rewrite length_app; cbn [List.length]|]; lia.
Qed.

Lemma run_loop_active lines i st :
  current_section st <> None ->
  (forall k, List.length (buffer k (sections st)) + List.length lines <= 50) ->
  total_buffered (sections (run_loop i lines st))
  = total_buffered (sections st) + List.length (filter long_line lines).
Proof.
  revert i st. induction lines as [|l rest IH]; intros i st Hcur Hroom;
    cbn [run_loop filter List.length] in *.
  - lia.
  - assert (Hcur' : current_section (loop_body i l st) <> None).
    { rewrite current_section_loop_body. destruct (header_of l); [discriminate|exact Hcur]. }
    rewrite IH; [|exact Hcur'|apply loop_body_room, Hroom].
    rewrite total_buffered_loop_body.
    destruct (current_section (loop_body i l st)) as [s|]; [|contradiction Hcur'; reflexivity].
    assert (E : (List.length (buffer s (sections st)) <? 50) = true).
    { apply Nat.ltb_lt. specialize (Hroom s). lia. }
    rewrite E, andb_true_r. unfold long_line at 2.
    destruct (20 <? Py.len l); cbn [List.length]; lia.
Qed.

Lemma run_loop_inactive lines i st :
  current_section st = None ->
  (forall k, List.length (buffer k (sections st)) + List.length lines <= 50) ->
  total_buffered (sections (run_loop i lines st))
  = total_buffered (sections st)
    + List.length (filter long_line (from_first_header lines)).
Proof.
  revert i st. induction lines as [|l rest IH]; intros i st Hcur Hroom;
    cbn [run_loop from_first_header List.length] in *.
  - cbn. lia.
  - pose proof (current_section_loop_body i l st) as Hc.
    pose proof (total_buffered_loop_body i l st) as Ht.
    destruct (header_of l) as [s|] eqn:Eh.
    + rewrite run_loop_active;
        [|rewrite Hc; discriminate|apply loop_body_room, Hroom].
      rewrite Ht, Hc.
      assert (E : (List.length (buffer s (sections st)) <? 50) = true).
      { apply Nat.ltb_lt. specialize (Hroom s). lia. }
      rewrite E, andb_true_r. cbn [filter]. unfold long_line at 2.
      destruct (20 <? Py.len l); cbn [List.length]; lia.
    + rewrite Hcur in Hc. rewrite IH; [|exact Hc|apply loop_body_room, Hroom].
      rewrite Ht, Hc. lia.
Qed.

(** X3: in a document of at most 50 non-empty lines nothing is dropped: the
    buffers together hold as many lines as there are lines longer than 20
    characters from the first header line on. *)
Theorem small_document_keeps_every_long_line (text : string) :
  List.length (paper_lines text) <= 50 ->
  total_buffered (analyze_paper_structure text)
  = List.length
      (filter (fun l => 20 <? Py.len l) (from_first_header (paper_lines text))).
Proof.
  intros H. unfold analyze_paper_structure.
  rewrite run_loop_inactive; [reflexivity|reflexivity|].
  intros k. replace (buffer k (sections initial_loop_state)) with (@nil string)
    by (destruct k; reflexivity).
  exact H.
Qed.

Lemma small_document_keeps_every_long_line_witness :
  total_buffered (analyze_paper_structure methods_document) = 2.
Proof.
  rewrite (small_document_keeps_every_long_line methods_document).
  - vm_compute. reflexivity.
  - vm_compute. lia.
Defined.

(** ** Documents of white space *)

Lemma rstrip_by_all p s : all_chars p s = true -> Py.rstrip_by p s = "".
Proof.
  induction s as [|c r IH]; cbn [all_chars Py.rstrip_by]; [reflexivity|].
  intros H. apply andb_prop in H as [Hc Hr]. rewrite (IH Hr), Hc. reflexivity.
Qed.

Lemma rstrip_by_empty p s : Py.rstrip_by p s = "" -> all_chars p s = true.
Proof.
  induction s as [|c r IH]; cbn [all_chars Py.rstrip_by]; [reflexivity|].
  destruct (Py.rstrip_by p r) eqn:E; [|discriminate].
  destruct (p c); [|discriminate]. intros _. apply IH. reflexivity.
Qed.

Lemma strip_by_empty p s : Py.strip_by p s = "" -> all_chars p s = true.
Proof.
  unfold Py.strip_by. induction s as [|c r IH]; cbn [all_chars Py.rstrip_by]; [reflexivity|].
  destruct (Py.rstrip_by p r) as [|d t] eqn:E.
  - destruct (p c) eqn:Ec; cbn [Py.lstrip_by]; rewrite ?Ec; [|discriminate].
    intros _. cbn [andb]. apply rstrip_by_empty, E.
  - cbn [Py.lstrip_by]. destruct (p c); [|discriminate].
    intros H. pose proof (IH H) as Hall. apply rstrip_by_all in Hall.
    rewrite Hall in E. discriminate.
Qed.

Lemma strip_by_all p s : all_chars p s = true -> Py.strip_by p s = "".
Proof. intros H. unfold Py.strip_by. rewrite (rstrip_by_all p s H). reflexivity. Qed.

Lemma split_on_all p sep s :
  all_chars p s = true ->
  Forall (fun w => all_chars p w = true) (Py.split_on sep s).
Proof.
  induction s as [|c r IH]; cbn [all_chars Py.split_on].
  - intros _. repeat constructor.
  - intros H. apply andb_prop in H as [Hc Hr]. specialize (IH Hr).
    destruct (Ascii.eqb c sep).
    + constructor; [reflexivity|exact IH].
    + destruct (Py.split_on sep r) as [|w ws].
      * repeat constructor. cbn. rewrite Hc. reflexivity.
      * inversion IH; subst. constructor; [cbn; rewrite Hc; assumption|assumption].
Qed.

(** X4: a document made of white space only (spaces, tabs, line breaks, or
    nothing at all) has no lines, and its analysis is the mapping of the
    start: empty title, empty authors, seven empty buffers. *)
Theorem blank_document_has_no_structure (text : string) :
  Py.strip text = "" ->
  paper_lines text = [] /\ analyze_paper_structure text = empty_sections.
Proof.
  intros H. apply strip_by_empty in H.
  assert (Hl : paper_lines text = []).
  { unfold paper_lines.
    pose proof (split_on_all Py.isspace "010"%char text H) as Hall.
    induction Hall as [|w ws Hw _ IH]; [reflexivity|].
    cbn [filter]. change (Py.strip w) with (Py.strip_by Py.isspace w).
    rewrite (strip_by_all _ _ Hw). exact IH. }
  split; [exact Hl|]. unfold analyze_paper_structure. rewrite Hl. reflexivity.
Qed.

Lemma blank_document_has_no_structure_witness :
  analyze_paper_structure ("   " ++ newline ++ newline ++ "  ") = empty_sections.
Proof.
  apply (blank_document_has_no_structure ("   " ++ newline ++ newline ++ "  ")).
  vm_compute. reflexivity.
Defined.

(** ** What the answers rest on *)

Lemma length_append (a b : string) :
  String.length (a ++ b) = String.length a + String.length b.
Proof. induction a as [|c a IH]; cbn; [reflexivity|rewrite IH; reflexivity]. Qed.

Lemma len_take n s : Py.len (Py.take n s) <= n.
Proof.
  unfold Py.len. revert s. induction n as [|n IH]; intros [|c s]; cbn; try lia.
  specialize (IH s). lia.
Qed.

Lemma len_clip n s : Py.len (clip n s) <= n + 3.
Proof.
  unfold clip. destruct (n <? Py.len s) eqn:E.
  - unfold Py.len. rewrite length_append. pose proof (len_take n s). unfold Py.len in *.
    cbn. lia.
  - apply Nat.ltb_ge in E. lia.
Qed.

Lemma resolve_keyword_scan question text :
  from_keyword_scan (resolve question text) = true ->
  4 < List.length (Py.split_ws question)
  /\ resolve question text = keyword_scan (Py.strip (Py.lower question)) text.
Proof.
  unfold resolve. cbv zeta.
  destruct (canned_answer _ _) as [o|] eqn:Ec.
  - rewrite (canned_answer_not_scan _ _ _ Ec). discriminate.
  - destruct (category_answer _ _ _) as [o|] eqn:Eg.
    + rewrite (category_answer_not_scan _ _ _ _ Eg). discriminate.
    + destruct (List.length (Py.split_ws question) <=? 4) eqn:E; [discriminate|].
      apply Nat.leb_gt in E. intros _. split; [exact E|reflexivity].
Qed.

(** X6: an answer of the keyword scan quotes the document: it is a trimmed line
    of the text, cut at 120 characters, whose lower-cased form contains a
    word of more than three characters of the lower-cased question and
    whose trimmed length is between 31 and 199; it is given to questions of
    more than four words only and has at most 123 characters. *)
Theorem keyword_answer_quotes_document (question text best : string) :
  resolve question text = KeywordLine best ->
  4 < List.length (Py.split_ws question)
  /\ Py.len best <= 123
  /\ exists line keyword,
       In line (Py.split_on "010"%char text)
       /\ In keyword (Py.split_ws (Py.strip (Py.lower question)))
       /\ 3 < Py.len keyword
       /\ Py.contains keyword (Py.lower line) = true
       /\ 30 < Py.len (Py.strip line) < 200
       /\ best = clip 120 (Py.strip line).
Proof.
  intros H.
  destruct (resolve_keyword_scan question text) as [Hlen Hscan];
    [rewrite H; reflexivity|].
  rewrite H in Hscan. symmetry in Hscan. unfold keyword_scan in Hscan.
  match type of Hscan with
  | context [filter ?f (Py.split_on ?c text)] =>
      destruct (filter f (Py.split_on c text)) as [|line rest] eqn:Ef
  end; [discriminate|].
  cbn [map] in Hscan. injection Hscan as Hbest.
  assert (Hin : In line (line :: rest)) by (left; reflexivity).
  rewrite <- Ef in Hin. apply filter_In in Hin as [Hin Hf].
  apply andb_prop in Hf as [Hf H200]. apply andb_prop in Hf as [Hany H30].
  unfold Py.any_in in Hany. apply existsb_exists in Hany as (keyword & Hk & Hc).
  apply filter_In in Hk as [Hk Hk3].
  apply Nat.ltb_lt in H30, H200, Hk3.
  split; [exact Hlen|]. split.
  - rewrite <- Hbest. apply (len_clip 120).
  - exists line, keyword. repeat split; try assumption. symmetry. exact Hbest.
Qed.

Lemma keyword_answer_quotes_document_witness :
  resolve "define the entropy measure used here"
    ("Notes" ++ newline ++ "  Entropy is a measure of disorder in a system.")
  = KeywordLine "Entropy is a measure of disorder in a system."
  /\ 4 < List.length (Py.split_ws "define the entropy measure used here")
  /\ Py.len "Entropy is a measure of disorder in a system." <= 123.
Proof.
  assert (H : resolve "define the entropy measure used here"
                ("Notes" ++ newline ++ "  Entropy is a measure of disorder in a system.")
              = KeywordLine "Entropy is a measure of disorder in a system.")
    by (vm_compute; reflexivity).
  split; [exact H|].
  destruct (keyword_answer_quotes_document _ _ _ H) as (H4 & H123 & _).
  split; [exact H4|exact H123].
Defined.

Lemma definition_scan_spec term lines :
  match definition_scan term lines with
  | TermLine c =>
      exists line, In line lines
                   /\ Py.contains term (Py.lower line) = true
                   /\ 20 < Py.len line < 300
                   /\ c = clip 150 (Py.strip line)
  | TermNotFound t =>
      t = term
      /\ forall line, In line lines -> 20 < Py.len line < 300 ->
                      Py.contains term (Py.lower line) = false
  | _ => False
  end.
Proof.
  induction lines as [|l rest IH]; cbn [definition_scan].
  - split; [reflexivity|]. intros line [].
  - destruct (Py.contains term (Py.lower l) && (20 <? Py.len l) && (Py.len l <? 300)) eqn:E.
    + apply andb_prop in E as [E E3]. apply andb_prop in E as [E1 E2].
      apply Nat.ltb_lt in E2, E3.
      exists l. repeat split; try assumption. left. reflexivity.
    + destruct (definition_scan term rest) as [| | | | | | | | | | | | |c|t| | |];
        try contradiction.
      * destruct IH as (line & Hin & IH). exists line. split; [right; exact Hin|exact IH].
      * destruct IH as [-> IH]. split; [reflexivity|].
        intros line [<-|Hin] [H20 H300]; [|apply IH; [exact Hin|split; assumption]].
        apply Nat.ltb_lt in H20, H300. rewrite H20, H300, !andb_true_r in E. exact E.
Qed.

Lemma canned_answer_is_canned table question_lower o :
  canned_answer table question_lower = Some o ->
  exists answer, o = Canned answer /\ In answer (map snd table).
Proof.
  induction table as [|[q a] rest IH]; cbn [canned_answer]; [discriminate|].
  destruct (Py.contains q question_lower).
  - intros H. injection H as <-. exists a. split; [reflexivity|left; reflexivity].
  - intros H. destruct (IH H) as (answer & Ho & Hin).
    exists answer. split; [exact Ho|right; exact Hin].
Qed.

Lemma nonempty_true b : nonempty b = true -> b <> [].
Proof. destruct b; [discriminate|discriminate]. Qed.

Lemma nonempty_false b : nonempty b = false -> b = [].
Proof. destruct b; [reflexivity|discriminate]. Qed.

Lemma definition_answer_lookup question_lower text o :
  definition_answer question_lower text = Some o -> lookup_result text o.
Proof.
  unfold definition_answer.
  destruct (Py.contains "what is" question_lower || Py.contains "what are" question_lower);
    [|discriminate].
  match goal with |- context [Py.truthy ?t] => set (term := t) end.
  destruct (Py.truthy term) eqn:Et; [|discriminate].
  assert (Hne : term <> "") by (intros E; rewrite E in Et; discriminate).
  intros H. injection H as <-.
  pose proof (definition_scan_spec term (Py.split_on "010"%char text)) as Hs.
  destruct (definition_scan term (Py.split_on "010"%char text)); try exact I.
  - destruct Hs as (line & Hs). exists term, line. split; [exact Hne|exact Hs].
  - destruct Hs as [-> Hs]. split; [exact Hne|exact Hs].
Qed.

Lemma category_answer_spec question_lower text d o :
  category_answer question_lower text d = Some o ->
  agrees_with d o /\ lookup_result text o.
Proof.
  unfold category_answer.
  repeat match goal with
         | |- context [if Py.any_in ?ws question_lower then _ else _] =>
             destruct (Py.any_in ws question_lower)
         end;
    try discriminate;
    try (intros H; injection H as <-;
         repeat match goal with
                | |- context [nonempty ?b] =>
                    let E := fresh "E" in
                    destruct (nonempty b) eqn:E;
                    [apply nonempty_true in E|apply nonempty_false in E]
                end;
         cbn; auto; fail).
  intros H. pose proof (definition_answer_lookup _ _ _ H) as Hl.
  split; [|exact Hl].
  destruct o; try exact I; cbn in Hl; try contradiction.
  all: unfold definition_answer in H;
    destruct (Py.contains "what is" question_lower || Py.contains "what are" question_lower);
    try discriminate;
    match type of H with context [Py.truthy ?t] => destruct (Py.truthy t) end;
    try discriminate; injection H as H;
    match type of H with
    | definition_scan ?t ?l = _ =>
        pose proof (definition_scan_spec t l) as Hs; rewrite H in Hs; contradiction
    end.
Qed.

(** X7: an answer that reports on a section tells what the analysis found: it
    says that the methodology, results or conclusion section exists, or
    that the objectives are in the introduction, only when the buffer of
    that section is not empty, and that the section is missing only when the
    buffer is empty; an abstract preview is the first three abstract lines,
    joined and cut at 100 characters. *)
Theorem section_answers_agree_with_analysis (question text : string) :
  agrees_with (analyze_paper_structure text) (resolve question text).
Proof.
  unfold resolve. cbv zeta.
  destruct (canned_answer _ _) as [o|] eqn:Ec.
  - apply canned_answer_is_canned in Ec as (a & -> & _). exact I.
  - destruct (category_answer _ _ _) as [o|] eqn:Eg.
    + exact (proj1 (category_answer_spec _ _ _ _ Eg)).
    + destruct (List.length (Py.split_ws question) <=? 4); [exact I|].
      unfold keyword_scan.
      match goal with |- context [map Py.strip ?l] => destruct (map Py.strip l) end;
        exact I.
Qed.


(** ** Canned questions in general *)

Lemma canned_answer_app t1 t2 question_lower :
  canned_answer (t1 ++ t2)%list question_lower
  = match canned_answer t1 question_lower with
    | Some o => Some o
    | None => canned_answer t2 question_lower
    end.
Proof.
  induction t1 as [|[q a] rest IH]; cbn [canned_answer app]; [reflexivity|].
  destruct (Py.contains q question_lower); [reflexivity|exact IH].
Qed.

Lemma canned_answer_hit table question_lower :
  Py.any_in (map fst table) question_lower = true ->
  canned_answer table question_lower <> None.
Proof.
  unfold Py.any_in.
  induction table as [|[q a] rest IH]; cbn [canned_answer map fst existsb]; [discriminate|].
  destruct (Py.contains q question_lower); [discriminate|exact IH].
Qed.

Lemma simple_questions_split d :
  simple_questions d = (general_questions ++ skipn 9 (simple_questions d))%list.
Proof. reflexivity. Qed.

(** X9: a question that contains one of the nine general canned questions (on
    artificial intelligence, AI, machine learning, deep learning, neural
    networks, data science, computer vision, natural language processing,
    robotics) gets one of the nine fixed answers, the same whatever the
    document is. *)
Theorem general_question_ignores_document (question : string) :
  Py.any_in (map fst general_questions) (Py.strip (Py.lower question)) = true ->
  (exists answer,
     In answer (map snd general_questions)
     /\ forall text, resolve question text = Canned answer)
  /\ forall text1 text2,
       answer_question_offline question text1
       = answer_question_offline question text2.
Proof.
  intros H. apply canned_answer_hit in H.
  destruct (canned_answer general_questions (Py.strip (Py.lower question)))
    as [o|] eqn:E; [|contradiction H; reflexivity].
  destruct (canned_answer_is_canned _ _ _ E) as (answer & -> & Hin).
  assert (Hr : forall text, resolve question text = Canned answer).
  { intros text. unfold resolve. cbv zeta.
    rewrite simple_questions_split, canned_answer_app, E. reflexivity. }
  split.
  - exists answer. split; [exact Hin|exact Hr].
  - intros text1 text2. unfold answer_question_offline. rewrite !Hr. reflexivity.
Qed.

Lemma general_question_ignores_document_witness :
  answer_question_offline "So, what is Deep Learning?" plain_document
  = answer_question_offline "So, what is Deep Learning?" methods_document.
Proof.
  apply (general_question_ignores_document "So, what is Deep Learning?").
  vm_compute. reflexivity.
Defined.

(** ** Letter case of the question *)

Lemma isspace_lower_char c : Py.isspace (Py.lower_char c) = Py.isspace c.
Proof. destruct c as [[] [] [] [] [] [] [] []]; vm_compute; reflexivity. Qed.

Lemma lower_append a b : Py.lower (a ++ b) = Py.lower a ++ Py.lower b.
Proof. induction a as [|c a IH]; cbn; [reflexivity|rewrite IH; reflexivity]. Qed.

Lemma truthy_lower s : Py.truthy (Py.lower s) = Py.truthy s.
Proof. destruct s; reflexivity. Qed.

Lemma split_ws_from_lower cur s :
  Py.split_ws_from (Py.lower cur) (Py.lower s)
  = map Py.lower (Py.split_ws_from cur s).
Proof.
  revert cur. induction s as [|c r IH]; intros cur; cbn [Py.split_ws_from Py.lower].
  - rewrite truthy_lower. destruct (Py.truthy cur); reflexivity.
  - rewrite isspace_lower_char, truthy_lower.
    destruct (Py.isspace c).
    + destruct (Py.truthy cur); cbn [map]; rewrite <- (IH ""); reflexivity.
    + rewrite <- IH, lower_append. reflexivity.
Qed.

Lemma split_ws_lower s : Py.split_ws (Py.lower s) = map Py.lower (Py.split_ws s).
Proof. exact (split_ws_from_lower "" s). Qed.

(** X10: the answer does not depend on the letter case of the question: two
    questions with the same lower-cased form get the same answer from
    every document. *)
Theorem answer_ignores_letter_case (question1 question2 text : string) :
  Py.lower question1 = Py.lower question2 ->
  answer_question_offline question1 text = answer_question_offline question2 text.
Proof.
  intros H. unfold answer_question_offline, resolve. cbv zeta.
  assert (Hw : List.length (Py.split_ws question1) = List.length (Py.split_ws question2)).
  { rewrite <- (length_map Py.lower (Py.split_ws question1)),
            <- (length_map Py.lower (Py.split_ws question2)).
    rewrite <- !split_ws_lower, H. reflexivity. }
  rewrite H, Hw. reflexivity.
Qed.

Lemma answer_ignores_letter_case_witness :
  answer_question_offline "WHO WROTE THIS PAPER" two_author_document
  = answer_question_offline "who wrote this paper" two_author_document.
Proof.
  apply (answer_ignores_letter_case "WHO WROTE THIS PAPER" "who wrote this paper").
  vm_compute. reflexivity.
Defined.

(** ** The summary page *)

Lemma truthy_append a b : Py.truthy (a ++ b) = Py.truthy a || Py.truthy b.
Proof. destruct a; [reflexivity|reflexivity]. Qed.

(** The summary is never the empty string, so a summary that was generated
    passes the test of line 330 from then on. *)
Lemma generate_comprehensive_summary_nonempty text :
  Py.truthy (generate_comprehensive_summary text) = true.
Proof.
  unfold generate_comprehensive_summary. cbv zeta.
  destruct (List.length (summary_parts_before_check text) <? 3) eqn:E.
  - destruct (join_two_more (newline ++ newline) (summary_parts_before_check text)
                document_content_header (overview text)) as [before ->].
    rewrite truthy_append. apply orb_true_r.
  - apply Nat.ltb_ge in E.
    destruct (summary_parts_before_check text) as [|x [|y rest]];
      cbn [List.length] in E; try lia.
    unfold Py.join. cbn [String.concat].
    rewrite truthy_append. apply orb_true_r.
Qed.

Lemma summary_view_shown st :
  Py.truthy (processed_text st) = true ->
  Py.truthy (summary st) = true ->
  summary_view st = (st, [Markdown (summary st)]).
Proof. intros Ht Hs. unfold summary_view. rewrite Ht, Hs. reflexivity. Qed.

(** X11: visiting the summary page again, without pressing the button, changes
    nothing: whatever a visit did (shown the warning, generated the summary,
    regenerated it), the next visit leaves the session as it is and shows
    the same page. *)
Theorem summary_page_settles (regenerate : bool) (st : session_state) :
  summary_page false (fst (summary_page regenerate st))
  = summary_page regenerate st.
Proof.
  assert (Hview : forall s, summary_view (fst (summary_view s)) = summary_view s).
  { intros s. unfold summary_view at 2 3.
    destruct (Py.truthy (processed_text s)) eqn:Ht; cbn [negb fst].
    - destruct (Py.truthy (summary s)) eqn:Hs; cbn [negb].
      + apply summary_view_shown; assumption.
      + apply summary_view_shown; [exact Ht|].
        apply generate_comprehensive_summary_nonempty.
    - unfold summary_view. rewrite Ht. reflexivity. }
  assert (Hpage : forall s, summary_page false s = summary_view s).
  { intros s. unfold summary_page. destruct (negb (Py.truthy (processed_text s))); reflexivity. }
  rewrite Hpage. unfold summary_page.
  destruct (negb (Py.truthy (processed_text st))); [apply Hview|].
  destruct regenerate; apply Hview.
Qed.

(** X12: processing a new document keeps the summary and the chat history of the
    session: the summary page goes on showing the summary made for the
    earlier document until the regenerate button is pressed, which shows the
    summary of the new text. *)
Theorem upload_keeps_summary_and_history (st : session_state) (text : string) :
  sufficient text = true ->
  Py.truthy (summary st) = true ->
  let st' := fst (process_text st text) in
  processed_text st' = text
  /\ session_sections st' = Some (analyze_paper_structure text)
  /\ chat_history st' = chat_history st
  /\ summary_page false st' = (st', [Markdown (summary st)])
  /\ snd (summary_page true st') = [Markdown (generate_comprehensive_summary text)].
Proof.
  intros Hsuf Hsum. unfold sufficient in Hsuf.
  assert (Htext : Py.truthy text = true) by (apply andb_prop in Hsuf; tauto).
  cbv zeta. unfold process_text. rewrite Hsuf. cbn [fst].
  set (st' := mkSession text (summary st) (chat_history st)
                (Some (analyze_paper_structure text))).
  assert (Hv : summary_view st' = (st', [Markdown (summary st)])).
  { apply (summary_view_shown st'); assumption. }
  repeat split.
  - unfold summary_page. cbn [processed_text st']. rewrite Htext. exact Hv.
  - unfold summary_page. cbn [processed_text st']. rewrite Htext. cbn [negb].
    rewrite Hv. cbn [fst].
    set (st2 := set_summary _ st').
    assert (Hv2 : summary_view st2 = (st2, [Markdown (summary st2)])).
    { apply (summary_view_shown st2); [exact Htext|].
      apply generate_comprehensive_summary_nonempty. }
    rewrite Hv2. reflexivity.
Qed.

Lemma upload_keeps_summary_and_history_witness :
  summary_page false
    (fst (process_text (mkSession "earlier text" "earlier summary" [] None)
            abstract_document))
  = (fst (process_text (mkSession "earlier text" "earlier summary" [] None)
            abstract_document),
     [Markdown "earlier summary"]).
Proof.
  refine (proj1 (proj2 (proj2 (proj2
            (upload_keeps_summary_and_history
               (mkSession "earlier text" "earlier summary" [] None)
               abstract_document _ _))))).
  - vm_compute. reflexivity.
  - reflexivity.
Defined.

(** ** The chat page *)






Example split_sentences_pieces :
  AIAnalyzer.split_sentences "One. Two!? Three" = ["One"; " Two"; " Three"]
  /\ AIAnalyzer.split_sentences "..Start. End." = [""; "Start"; " End"; ""]
  /\ AIAnalyzer.split_sentences "" = [""].
Proof. repeat split. Qed.

Example fill_three_of_none :
  AIAnalyzer.fill_default_questions [] 3
  = [ "What is the main argument presented?";
      "How does the author support their claims?";
      "What methodology was used in this research?" ].
Proof. vm_compute. reflexivity. Qed.

(** ** The question generator *)

Lemma fill_loop_spec questions num_questions :
  exists more,
    AIAnalyzer.fill_loop num_questions questions = (questions ++ more)%list
    /\ Forall (fun q => In q AIAnalyzer.default_questions) more
    /\ (num_questions
        <= Z.of_nat (List.length (AIAnalyzer.fill_loop num_questions questions)))%Z
    /\ ((num_questions <= Z.of_nat (List.length questions))%Z -> more = []).
Proof.
  functional induction (AIAnalyzer.fill_loop num_questions questions)
    as [qs Hlt IH|qs Hge].
  - apply Z.ltb_lt in Hlt. destruct IH as (more & Hmore & Hall & Hlen & _).
    exists (AIAnalyzer.default_questions ++ more)%list.
    rewrite Hmore in *. rewrite <- app_assoc in *.
    split; [reflexivity|]. split; [|split].
    + apply Forall_app. split; [|exact Hall].
      apply Forall_forall. intros q Hq. exact Hq.
    + exact Hlen.
    + intros Hle. lia.
  - apply Z.ltb_ge in Hge. exists []. rewrite app_nil_r.
    split; [reflexivity|]. split; [constructor|].
    split; [lia|]. intros _. reflexivity.
Qed.

Lemma in_firstn {A : Type} (x : A) (n : nat) (l : list A) :
  In x (firstn n l) -> In x l.
Proof.
  intros H. rewrite <- (firstn_skipn n l). apply in_or_app. left. exact H.
Qed.

Lemma Forall_firstn_of {A : Type} (P : A -> Prop) (n : nat) (l : list A) :
  Forall P l -> Forall P (firstn n l).
Proof.
  intros H. apply Forall_forall. intros x Hx.
  apply (proj1 (Forall_forall P l) H). exact (in_firstn x n l Hx).
Qed.

Lemma fill_default_questions_nonneg (questions : list string) (num_questions : Z) :
  (0 <= num_questions)%Z ->
  exists fill,
    AIAnalyzer.fill_default_questions questions num_questions
    = (firstn (Z.to_nat num_questions) questions ++ fill)%list
    /\ List.length (AIAnalyzer.fill_default_questions questions num_questions)
       = Z.to_nat num_questions
    /\ Forall (fun q => In q AIAnalyzer.default_questions) fill
    /\ ((num_questions <= Z.of_nat (List.length questions))%Z -> fill = []).
Proof.
  destruct (fill_loop_spec questions num_questions) as (more & Hmore & Hall & Hlen & Hnone).
  unfold AIAnalyzer.fill_default_questions, AIAnalyzer.slice_to.
  intros Hpos. assert (E : (0 <=? num_questions)%Z = true) by (apply Z.leb_le; exact Hpos).
  rewrite E.
  exists (firstn (Z.to_nat num_questions - List.length questions) more).
  split; [rewrite Hmore; apply firstn_app|]. split; [|split].
  - rewrite length_firstn. lia.
  - apply Forall_firstn_of, Hall.
  - intros Hle. rewrite (Hnone Hle). apply firstn_nil.
Qed.

(** X16: [_fill_default_questions] returns exactly [num_questions] questions
    when that number is not negative: the given questions come first, cut
    at [num_questions], and every question after them is one of the eight
    default questions; none is added when enough questions were given.  A
    negative number drops that many questions from the end of the given
    ones instead. *)
Theorem fill_default_questions_result (questions : list string) (num_questions : Z) :
  ((0 <= num_questions)%Z ->
   exists fill,
     AIAnalyzer.fill_default_questions questions num_questions
     = (firstn (Z.to_nat num_questions) questions ++ fill)%list
     /\ List.length (AIAnalyzer.fill_default_questions questions num_questions)
        = Z.to_nat num_questions
     /\ Forall (fun q => In q AIAnalyzer.default_questions) fill
     /\ ((num_questions <= Z.of_nat (List.length questions))%Z -> fill = []))
  /\ ((num_questions < 0)%Z ->
      AIAnalyzer.fill_default_questions questions num_questions
      = firstn (List.length questions - Z.to_nat (- num_questions)) questions).
Proof.
  split; [apply fill_default_questions_nonneg|].
  intros Hneg.
  destruct (fill_loop_spec questions num_questions) as (more & Hmore & _ & _ & Hnone).
  unfold AIAnalyzer.fill_default_questions, AIAnalyzer.slice_to.
  assert (E : (0 <=? num_questions)%Z = false) by (apply Z.leb_gt; exact Hneg).
  rewrite E, Hmore, Hnone by lia. rewrite app_nil_r. reflexivity.
Qed.

Lemma fill_default_questions_result_witness :
  List.length (AIAnalyzer.fill_default_questions ["Why?"; "How?"] 11) = 11.
Proof.
  destruct (proj1 (fill_default_questions_result ["Why?"; "How?"] 11))
    as (fill & _ & H & _).
  - lia.
  - exact H.
Defined.

(** X17: without spaCy the question generator returns exactly [num_questions]
    questions (for a number that is not negative): first at most ten
    questions, each quoting a trimmed piece of the text between sentence
    marks that has more than 50 characters, then default questions only. *)
Theorem generated_questions (text : string) (num_questions : Z) :
  (0 <= num_questions)%Z ->
  exists asked fill,
    AIAnalyzer.generate_questions_with_fallback text num_questions
    = (asked ++ fill)%list
    /\ List.length (AIAnalyzer.generate_questions_with_fallback text num_questions)
       = Z.to_nat num_questions
    /\ List.length asked <= 10
    /\ Forall (fun q => exists piece,
                   In piece (AIAnalyzer.split_sentences text)
                   /\ 50 < Py.len (Py.strip piece)
                   /\ q = AIAnalyzer.explain_question (Py.strip piece)) asked
    /\ Forall (fun q => In q AIAnalyzer.default_questions) fill.
Proof.
  intros Hpos. unfold AIAnalyzer.generate_questions_with_fallback. cbv zeta.
  set (kept := filter (fun s => 50 <? Py.len (Py.strip s)) (AIAnalyzer.split_sentences text)).
  set (given := map AIAnalyzer.explain_question (firstn 10 (map Py.strip kept))).
  destruct (fill_default_questions_nonneg given num_questions Hpos)
    as (fill & Heq & Hlen & Hall & _).
  exists (firstn (Z.to_nat num_questions) given), fill.
  split; [exact Heq|]. split; [exact Hlen|]. split; [|split; [|exact Hall]].
  - rewrite length_firstn. unfold given. rewrite length_map, length_firstn. lia.
  - apply Forall_firstn_of, Forall_forall. intros q Hq. unfold given in Hq.
    apply in_map_iff in Hq as (sentence & <- & Hs).
    apply in_firstn, in_map_iff in Hs as (piece & <- & Hp).
    unfold kept in Hp. apply filter_In in Hp as [Hin Hlong].
    apply Nat.ltb_lt in Hlong. exists piece. auto.
Qed.

Lemma generated_questions_witness :
  List.length
    (AIAnalyzer.generate_questions_with_fallback
       "Short one. This sentence is long enough to be turned into a question, is it not? Yes."
       5) = 5.
Proof.
  destruct (generated_questions
              "Short one. This sentence is long enough to be turned into a question, is it not? Yes."
              5) as (asked & fill & _ & H & _).
  - lia.
  - exact H.
Defined.

Lemma count_present_zero words text_lower :
  AIAnalyzer.count_present words text_lower = 0 <-> Py.any_in words text_lower = false.
Proof.
  unfold AIAnalyzer.count_present, Py.any_in.
  induction words as [|w ws IH]; cbn [filter existsb List.length]; [tauto|].
  destruct (Py.contains w text_lower); cbn [List.length orb]; [split; [lia|discriminate]|exact IH].
Qed.

(** X18: the sentiment is [positive] only when one of the six positive words
    occurs in the lower-cased text, [negative] only when one of the six
    negative words does, and [neutral] for a text with none of the twelve. *)
Theorem sentiment_needs_a_word (doc_text : string) :
  (AIAnalyzer.analyze_sentiment doc_text = "positive" ->
   Py.any_in AIAnalyzer.positive_words (Py.lower doc_text) = true)
  /\ (AIAnalyzer.analyze_sentiment doc_text = "negative" ->
      Py.any_in AIAnalyzer.negative_words (Py.lower doc_text) = true)
  /\ (Py.any_in AIAnalyzer.positive_words (Py.lower doc_text) = false ->
      Py.any_in AIAnalyzer.negative_words (Py.lower doc_text) = false ->
      AIAnalyzer.analyze_sentiment doc_text = "neutral").
Proof.
  unfold AIAnalyzer.analyze_sentiment. cbv zeta.
  pose proof (count_present_zero AIAnalyzer.positive_words (Py.lower doc_text)) as Hp.
  pose proof (count_present_zero AIAnalyzer.negative_words (Py.lower doc_text)) as Hn.
  set (p := AIAnalyzer.count_present AIAnalyzer.positive_words (Py.lower doc_text)) in *.
  set (n := AIAnalyzer.count_present AIAnalyzer.negative_words (Py.lower doc_text)) in *.
  destruct (n <? p) eqn:E1; [|destruct (p <? n) eqn:E2].
  - apply Nat.ltb_lt in E1. split; [|split].
    + intros _. destruct (Py.any_in AIAnalyzer.positive_words _); [reflexivity|].
      assert (p = 0) by (apply Hp; reflexivity). lia.
    + discriminate.
    + intros H _. apply Hp in H. lia.
  - apply Nat.ltb_lt in E2. split; [|split].
    + discriminate.
    + intros _. destruct (Py.any_in AIAnalyzer.negative_words _); [reflexivity|].
      assert (n = 0) by (apply Hn; reflexivity). lia.
    + intros _ H. apply Hn in H. lia.
  - split; [discriminate|]. split; [discriminate|]. reflexivity.
Qed.

Lemma sentiment_needs_a_word_witness :
  AIAnalyzer.analyze_sentiment "The sky was blue over the harbour." = "neutral".
Proof.
  apply (proj2 (proj2 (sentiment_needs_a_word "The sky was blue over the harbour."))).
  - vm_compute. reflexivity.
  - vm_compute. reflexivity.
Defined.

(** ** The title of the summary *)

Lemma first_title_line_find lines :
  first_title_line lines
  = match find title_like lines with
    | Some line => ["**📄 Title:** " ++ line]
    | None => []
    end.
Proof.
  induction lines as [|l rest IH]; cbn [first_title_line find]; [reflexivity|].
  unfold title_like at 1. destruct ((10 <? Py.len l) && (Py.len l <? 200)); [reflexivity|exact IH].
Qed.

Lemma title_part_first_of_three text :
  title_part text (analyze_paper_structure text)
  = first_title_line (firstn 3 (paper_lines text)).
Proof.
  unfold title_part, analyze_paper_structure. rewrite title_value.
  destruct (paper_lines text) as [|l rest]; [reflexivity|].
  cbn [firstn first_title_line].
  destruct ((10 <? Py.len l) && (Py.len l <? 200)) eqn:E; [|reflexivity].
  destruct l as [|c l]; [discriminate E|reflexivity].
Qed.

Lemma join_cons sep x parts : exists rest, Py.join sep (x :: parts) = x ++ rest.
Proof.
  unfold Py.join. destruct parts as [|y parts]; cbn [String.concat].
  - exists "". induction x as [|c x IH]; cbn; [reflexivity|rewrite <- IH; reflexivity].
  - eexists. reflexivity.
Qed.

(** X14: the summary opens with the title: the first of the first three
    non-empty trimmed lines that has more than 10 and fewer than 200
    characters, after the title label.  When none of the three has, the
    summary has no title part. *)
Theorem summary_opens_with_title (text : string) :
  match find title_like (firstn 3 (paper_lines text)) with
  | Some line =>
      exists rest,
        generate_comprehensive_summary text = "**📄 Title:** " ++ line ++ rest
  | None => title_part text (analyze_paper_structure text) = []
  end.
Proof.
  pose proof (title_part_first_of_three text) as Ht.
  rewrite first_title_line_find in Ht.
  destruct (find title_like (firstn 3 (paper_lines text))) as [line|]; [|exact Ht].
  unfold generate_comprehensive_summary, summary_parts_before_check. cbv zeta.
  rewrite Ht. cbn [app].
  match goal with
  | |- context [Py.join ?sep (if ?b then (?x :: ?l ++ ?m)%list else ?x :: ?l)] =>
      destruct (join_cons sep x (if b then (l ++ m)%list else l)) as [rest Hr];
      exists rest;
      replace (if b then (x :: l ++ m)%list else x :: l)
        with (x :: (if b then (l ++ m)%list else l)) by (destruct b; reflexivity)
  end.
  rewrite Hr. apply append_assoc.
Qed.

(** ** A PDF that cannot be read *)

(** X15: when PyMuPDF raises on a file of type [application/pdf], the upload
    shows the file banner, the reading error with the message of the
    exception, and the insufficient-text error, and leaves the session as
    it was. *)
Theorem unreadable_pdf_is_rejected {uploaded_file : Type}
    (file_name file_type : uploaded_file -> string)
    (pdf_pages_text : uploaded_file -> string + string)
    (txt_content : uploaded_file -> string)
    (st : session_state) (f : uploaded_file) (e : string) :
  file_type f = "application/pdf" ->
  pdf_pages_text f = inr e ->
  upload file_name file_type pdf_pages_text txt_content st f
  = (st,
     [ Info ("📁 **File:** " ++ file_name f ++ " | **Type:** application/pdf");
       Error ("❌ Error reading PDF: " ++ e);
       Error "❌ Could not extract sufficient text. Please try another file." ]).
Proof.
  intros Htype Hpdf.
  unfold upload, extract_text, extract_text_from_pdf.
  rewrite Htype, Hpdf. reflexivity.
Qed.

Lemma unreadable_pdf_is_rejected_witness :
  fst (upload (fun f : string => f) (fun _ => "application/pdf")
         (fun _ => inr "cannot open broken document") (fun _ => "")
         initial_session "scan.pdf")
  = initial_session.
Proof.
  rewrite (unreadable_pdf_is_rejected (fun f : string => f)
             (fun _ => "application/pdf")
             (fun _ => inr "cannot open broken document") (fun _ => "")
             initial_session "scan.pdf" "cannot open broken document"
             eq_refl eq_refl).
  reflexivity.
Defined.

(** ** Trimmed lines *)

Lemma lstrip_by_idempotent p s : Py.lstrip_by p (Py.lstrip_by p s) = Py.lstrip_by p s.
Proof.
  induction s as [|c r IH]; cbn [Py.lstrip_by]; [reflexivity|].
  destruct (p c) eqn:E; [exact IH|]. cbn [Py.lstrip_by]. rewrite E. reflexivity.
Qed.

Lemma rstrip_by_idempotent p s : Py.rstrip_by p (Py.rstrip_by p s) = Py.rstrip_by p s.
Proof.
  induction s as [|c r IH]; cbn [Py.rstrip_by]; [reflexivity|].
  destruct (Py.rstrip_by p r) as [|d t] eqn:E.
  - destruct (p c) eqn:Ec; cbn [Py.rstrip_by]; rewrite ?Ec; reflexivity.
  - cbn [Py.rstrip_by] in *. rewrite IH. reflexivity.
Qed.

Lemma rstrip_by_lstrip_by p s :
  Py.rstrip_by p s = s -> Py.rstrip_by p (Py.lstrip_by p s) = Py.lstrip_by p s.
Proof.
  induction s as [|c r IH]; [reflexivity|].
  intros H. cbn [Py.lstrip_by]. destruct (p c) eqn:E; [|exact H].
  apply IH. cbn [Py.rstrip_by] in H.
  destruct (Py.rstrip_by p r) as [|d t].
  - rewrite E in H. discriminate.
  - injection H as H. exact H.
Qed.

Lemma strip_by_idempotent p s : Py.strip_by p (Py.strip_by p s) = Py.strip_by p s.
Proof.
  unfold Py.strip_by.
  rewrite (rstrip_by_lstrip_by p (Py.rstrip_by p s) (rstrip_by_idempotent p s)).
  apply lstrip_by_idempotent.
Qed.

Lemma all_chars_lstrip_by q p s :
  all_chars q s = true -> all_chars q (Py.lstrip_by p s) = true.
Proof.
  induction s as [|c r IH]; cbn [Py.lstrip_by all_chars]; [reflexivity|].
  intros H. destruct (p c); [|exact H]. apply andb_prop in H as [_ H]. exact (IH H).
Qed.

Lemma all_chars_rstrip_by q p s :
  all_chars q s = true -> all_chars q (Py.rstrip_by p s) = true.
Proof.
  induction s as [|c r IH]; cbn [Py.rstrip_by all_chars]; [reflexivity|].
  intros H. apply andb_prop in H as [Hc Hr]. specialize (IH Hr).
  destruct (Py.rstrip_by p r) as [|d t].
  - destruct (p c); cbn [all_chars]; [reflexivity|rewrite Hc; reflexivity].
  - cbn [all_chars] in *. rewrite Hc. exact IH.
Qed.

Lemma all_chars_strip_by q p s :
  all_chars q s = true -> all_chars q (Py.strip_by p s) = true.
Proof. intros H. apply all_chars_lstrip_by, all_chars_rstrip_by, H. Qed.

Lemma split_on_pieces sep s :
  Forall (fun w => all_chars (fun c => negb (Ascii.eqb c sep)) w = true)
    (Py.split_on sep s).
Proof.
  induction s as [|c r IH]; cbn [Py.split_on].
  - repeat constructor.
  - destruct (Ascii.eqb c sep) eqn:E.
    + constructor; [reflexivity|exact IH].
    + destruct (Py.split_on sep r) as [|w ws].
      * repeat constructor. cbn. rewrite E. reflexivity.
      * inversion IH; subst. constructor; [cbn; rewrite E; assumption|assumption].
Qed.

Lemma lines_are_trimmed (text line : string) :
  In line (paper_lines text) -> trimmed_line line.
Proof.
  unfold paper_lines. intros H.
  apply in_map_iff in H as (raw & <- & Hraw).
  apply filter_In in Hraw as [Hin Htruthy].
  unfold trimmed_line. split; [|split].
  - intros E. rewrite E in Htruthy. discriminate.
  - apply strip_by_idempotent.
  - apply all_chars_strip_by.
    exact (proj1 (Forall_forall _ _) (split_on_pieces "010"%char text) raw Hin).
Qed.

Lemma subsequence_In {A : Type} (x : A) (s l : list A) :
  subsequence s l -> In x s -> In x l.
Proof.
  induction 1 as [l|y s l _ IH|y s l _ IH]; cbn [In].
  - intros [].
  - intros [H|H]; [left; exact H|right; exact (IH H)].
  - intros H. right. exact (IH H).
Qed.

Lemma last_in_cons {A : Type} (l : list A) (a d : A) : In (last (a :: l) d) (a :: l).
Proof.
  revert a. induction l as [|b l IH]; intros a; [left; reflexivity|].
  change (last (a :: b :: l) d) with (last (b :: l) d). right. apply IH.
Qed.

Lemma last_default_or_in {A : Type} (l : list A) (d : A) :
  last l d = d \/ In (last l d) l.
Proof. destruct l as [|a l]; [left; reflexivity|right; apply last_in_cons]. Qed.

(** X5: what the analysis stores comes from the document and is trimmed: every
    buffered line is one of the non-empty trimmed lines of the text, each of
    which is non-empty, has no white space at either end and no line break;
    the title and the authors are the empty string or such a line. *)
Theorem stored_text_is_trimmed (text : string) :
  (forall k line,
     In line (buffer k (analyze_paper_structure text)) ->
     In line (paper_lines text) /\ trimmed_line line)
  /\ (title (analyze_paper_structure text) = ""
      \/ (In (title (analyze_paper_structure text)) (paper_lines text)
          /\ trimmed_line (title (analyze_paper_structure text))))
  /\ (authors (analyze_paper_structure text) = ""
      \/ (In (authors (analyze_paper_structure text)) (paper_lines text)
          /\ trimmed_line (authors (analyze_paper_structure text)))).
Proof.
  split; [|split].
  - intros k line Hin.
    assert (Hl : In line (paper_lines text)).
    { unfold analyze_paper_structure in Hin.
      destruct (run_loop_subsequence k (paper_lines text) 0 initial_loop_state)
        as (more & Hmore & Hsub).
      rewrite Hmore in Hin.
      replace (buffer k (sections initial_loop_state)) with (@nil string) in Hin
        by (destruct k; reflexivity).
      exact (subsequence_In line _ _ Hsub Hin). }
    split; [exact Hl|exact (lines_are_trimmed text line Hl)].
  - unfold analyze_paper_structure. rewrite title_value.
    destruct (paper_lines text) as [|l rest] eqn:E; [left; reflexivity|].
    destruct ((10 <? Py.len l) && (Py.len l <? 200)); [|left; reflexivity].
    right. assert (Hl : In l (paper_lines text)) by (rewrite E; left; reflexivity).
    split; [left; reflexivity|exact (lines_are_trimmed text l Hl)].
  - unfold analyze_paper_structure. rewrite run_loop_authors.
    cbn [initial_loop_state sections empty_sections authors].
    destruct (last_default_or_in
                (map snd (authors_writes (front_writes 0 (paper_lines text)))) "")
      as [H|H]; [left; exact H|right].
    set (v := last _ _) in *.
    apply in_map_iff in H as ([i v'] & Hv & Hin). cbn [snd] in Hv. subst v'.
    apply in_authors_writes, in_front_writes in Hin.
    destruct Hin as (line & _ & Hnth & Hfm).
    apply front_matter_authors in Hfm as (_ & Hv & _).
    apply nth_error_In in Hnth. rewrite <- Hv in Hnth.
    split; [exact Hnth|exact (lines_are_trimmed text v Hnth)].
Qed.

(** ** Cleaned text *)

Lemma len_lstrip_by p s : Py.len (Py.lstrip_by p s) <= Py.len s.
Proof.
  unfold Py.len. induction s as [|c r IH]; cbn [Py.lstrip_by String.length]; [lia|].
  destruct (p c); cbn [String.length]; lia.
Qed.

Lemma len_rstrip_by p s : Py.len (Py.rstrip_by p s) <= Py.len s.
Proof.
  unfold Py.len. induction s as [|c r IH]; cbn [Py.rstrip_by String.length]; [lia|].
  destruct (Py.rstrip_by p r) as [|d t].
  - destruct (p c); cbn [String.length] in *; lia.
  - cbn [String.length] in *. lia.
Qed.

Lemma len_strip_by p s : Py.len (Py.strip_by p s) <= Py.len s.
Proof.
  unfold Py.strip_by. pose proof (len_lstrip_by p (Py.rstrip_by p s)).
  pose proof (len_rstrip_by p s). lia.
Qed.

Lemma collapse_spaces_from_plain b s :
  all_chars plain_space (DocumentProcessor.collapse_spaces_from b s) = true.
Proof.
  revert b. induction s as [|c r IH]; intros b;
    cbn [DocumentProcessor.collapse_spaces_from]; [reflexivity|].
  destruct (Py.isspace c) eqn:E.
  - destruct b; [apply IH|]. cbn [all_chars]. rewrite IH. reflexivity.
  - cbn [all_chars]. unfold plain_space at 1. rewrite E, IH. reflexivity.
Qed.

Lemma len_collapse_spaces_from b s :
  Py.len (DocumentProcessor.collapse_spaces_from b s) <= Py.len s.
Proof.
  unfold Py.len. revert b. induction s as [|c r IH]; intros b;
    cbn [DocumentProcessor.collapse_spaces_from String.length]; [lia|].
  destruct (Py.isspace c); [destruct b|]; cbn [String.length];
    [specialize (IH true)|specialize (IH true)|specialize (IH false)]; lia.
Qed.

Lemma keep_chars_all p s : all_chars p (DocumentProcessor.keep_chars p s) = true.
Proof.
  induction s as [|c r IH]; cbn [DocumentProcessor.keep_chars]; [reflexivity|].
  destruct (p c) eqn:E; [|exact IH]. cbn [all_chars]. rewrite E, IH. reflexivity.
Qed.

Lemma keep_chars_preserves q p s :
  all_chars q s = true -> all_chars q (DocumentProcessor.keep_chars p s) = true.
Proof.
  induction s as [|c r IH]; cbn [DocumentProcessor.keep_chars all_chars]; [reflexivity|].
  intros H. apply andb_prop in H as [Hc Hr].
  destruct (p c); [|exact (IH Hr)]. cbn [all_chars]. rewrite Hc, (IH Hr). reflexivity.
Qed.

Lemma len_keep_chars p s : Py.len (DocumentProcessor.keep_chars p s) <= Py.len s.
Proof.
  unfold Py.len. induction s as [|c r IH];
    cbn [DocumentProcessor.keep_chars String.length]; [lia|].
  destruct (p c); cbn [String.length]; lia.
Qed.

(** X19: whatever the word characters are, cleaned text holds only word
    characters, white space and the marks [.,!?;:()-]; its only white space
    is the plain space (no tab, no line break); it has no white space at
    either end; and it is never longer than the text it comes from. *)
Theorem cleaned_text_shape (is_word : ascii -> bool) (text : string) :
  let cleaned := DocumentProcessor.clean_text is_word text in
  all_chars (DocumentProcessor.kept is_word) cleaned = true
  /\ all_chars plain_space cleaned = true
  /\ Py.strip cleaned = cleaned
  /\ Py.len cleaned <= Py.len text.
Proof.
  cbv zeta. unfold DocumentProcessor.clean_text, DocumentProcessor.collapse_spaces, Py.strip.
  split; [|split; [|split]].
  - apply all_chars_strip_by, keep_chars_all.
  - apply all_chars_strip_by, keep_chars_preserves, collapse_spaces_from_plain.
  - apply strip_by_idempotent.
  - pose proof (len_strip_by Py.isspace
                  (DocumentProcessor.keep_chars (DocumentProcessor.kept is_word)
                     (DocumentProcessor.collapse_spaces_from false text))).
    pose proof (len_keep_chars (DocumentProcessor.kept is_word)
                  (DocumentProcessor.collapse_spaces_from false text)).
    pose proof (len_collapse_spaces_from false text). lia.
Qed.
